(** * Resume_Optimizer: the scoring and structural-analysis engine

    A shallow embedding of [backend/parser.py] ([_normalize]),
    [backend/ats_calculator.py] ([ATSCalculator]),
    [backend/suggest_skills.py] and [backend/restructure_advice.py],
    followed by the properties of the engine.

    Modelling conventions.
    - Python [str] values are [string]s over the 7-bit ASCII alphabet;
      character predicates ([isalnum], [isspace], [isupper], [\w], [\d],
      [\s]) are the ASCII ones, codes above 127 are unclassified symbols.
    - Python [float]s are exact rationals [Q]; [round] is round-half-even.
    - Python [set]s of strings are [gset string]; dicts used as maps are
      [gmap string _]; a resume element (a dict) is the record [Element].
    - A Python exception is the [Raise] constructor of [py]; [try/except]
      blocks are written out as matches on it.
    - spaCy, SkillNER and scikit-learn are external: they are the fields of
      the [Backend] class, each a function of its input that may raise. *)

From Stdlib Require Import ZArith QArith Qround Qminmax Qabs Lqa String Ascii List Lia Bool DecimalString.
From stdpp Require Import base gmap sets list strings sorting.

Set Warnings "-clear-no-such-hyp".

Open Scope string_scope.
Open Scope list_scope.

(** ** Python exceptions *)

Inductive py (A : Type) : Type :=
| Ret (a : A)
| Raise (exn : string).
Arguments Ret {A} a.
Arguments Raise {A} exn.

(** ** Characters *)

Module Chr.

Definition code (c : ascii) : nat := nat_of_ascii c.

Definition between (lo hi : nat) (c : ascii) : bool :=
  (lo <=? code c)%nat && (code c <=? hi)%nat.

Definition isupper (c : ascii) : bool := between 65 90 c.
Definition islower (c : ascii) : bool := between 97 122 c.
Definition isdigit (c : ascii) : bool := between 48 57 c.
Definition isalpha (c : ascii) : bool := isupper c || islower c.
Definition isalnum (c : ascii) : bool := isalpha c || isdigit c.

(** [str.isspace] and the regex class [\s]: TAB..CR, FS..US and space. *)
Definition isspace (c : ascii) : bool := between 9 13 c || between 28 32 c.

(** The regex class [\w]. *)
Definition isword (c : ascii) : bool := isalnum c || Ascii.eqb c "_".

Definition lower (c : ascii) : ascii :=
  if isupper c then ascii_of_nat (code c + 32) else c.

Definition upper (c : ascii) : ascii :=
  if islower c then ascii_of_nat (code c - 32) else c.

Definition chr (x : ascii) (c : ascii) : bool := Ascii.eqb c x.

(** [c.lower() == c] *)
Definition lower_fixed (c : ascii) : bool := Ascii.eqb (lower c) c.

(** Membership in a bracket expression listing single characters. *)
Fixpoint one_of (cs : string) (c : ascii) : bool :=
  match cs with
  | EmptyString => false
  | String x cs' => Ascii.eqb c x || one_of cs' c
  end.

End Chr.

(** ** Python string operations *)

Module Str.

Fixpoint map (f : ascii → ascii) (s : string) : string :=
  match s with
  | EmptyString => EmptyString
  | String c s' => String (f c) (map f s')
  end.

(** [s.lower()] *)
Definition lower (s : string) : string := map Chr.lower s.

Fixpoint forallb (p : ascii → bool) (s : string) : bool :=
  match s with
  | EmptyString => true
  | String c s' => p c && forallb p s'
  end.

(** [sum(p(c) for c in s)] *)
Fixpoint countb (p : ascii → bool) (s : string) : nat :=
  match s with
  | EmptyString => 0
  | String c s' => (if p c then 1 else 0) + countb p s'
  end.

Definition is_empty (s : string) : bool :=
  match s with EmptyString => true | _ => false end.

(** [s[:n]] *)
Fixpoint take (n : nat) (s : string) : string :=
  match n, s with
  | S n', String c s' => String c (take n' s')
  | _, _ => EmptyString
  end.

(** [s.lstrip()] *)
Fixpoint lstrip (s : string) : string :=
  match s with
  | EmptyString => EmptyString
  | String c s' => if Chr.isspace c then lstrip s' else s
  end.

(** [s.rstrip()] *)
Fixpoint rstrip (s : string) : string :=
  match s with
  | EmptyString => EmptyString
  | String c s' =>
      match rstrip s' with
      | EmptyString => if Chr.isspace c then EmptyString else String c EmptyString
      | r => String c r
      end
  end.

(** [s.strip()] *)
Definition strip (s : string) : string := lstrip (rstrip s).

(** [s.strip(chars)] for an explicit character set. *)
Fixpoint lstrip_of (p : ascii → bool) (s : string) : string :=
  match s with
  | EmptyString => EmptyString
  | String c s' => if p c then lstrip_of p s' else s
  end.

(** [s.split(sep)] for a one-character separator: empty fields are kept. *)
Fixpoint split_on (p : ascii → bool) (s : string) : list string :=
  match s with
  | EmptyString => [EmptyString]
  | String c s' =>
      if p c then EmptyString :: split_on p s'
      else match split_on p s' with
           | w :: ws => String c w :: ws
           | [] => [String c EmptyString]
           end
  end.

(** [s.split()]: split on runs of whitespace, no empty fields. *)
Definition split (s : string) : list string :=
  List.filter (fun w => negb (is_empty w)) (split_on Chr.isspace s).

(** [s.startswith(k)] *)
Fixpoint startswith (k s : string) : bool :=
  match k, s with
  | EmptyString, _ => true
  | String a k', String b s' => Ascii.eqb a b && startswith k' s'
  | String _ _, EmptyString => false
  end.

(** [k in s] *)
Fixpoint contains (s k : string) : bool :=
  startswith k s ||
  match s with
  | EmptyString => false
  | String _ s' => contains s' k
  end.

(** Drop [n] characters. *)
Fixpoint drop (n : nat) (s : string) : string :=
  match n, s with
  | S n', String _ s' => drop n' s'
  | _, _ => s
  end.

(** [s.count(k)]: the number of non-overlapping occurrences of [k],
    scanning from the left; [len(s) + 1] when [k] is empty. *)
Fixpoint count_from (fuel : nat) (s k : string) : nat :=
  match fuel with
  | O => 0
  | S fuel' =>
      if startswith k s then
        match k with
        | EmptyString =>
            match s with
            | EmptyString => 1
            | String _ s' => S (count_from fuel' s' k)
            end
        | String _ _ => S (count_from fuel' (drop (String.length k) s) k)
        end
      else
        match s with
        | EmptyString => 0
        | String _ s' => count_from fuel' s' k
        end
  end.

Definition count (s k : string) : nat := count_from (S (String.length s)) s k.

(** [s.title()]: a letter is upper-cased after a non-letter and
    lower-cased after a letter. *)
Fixpoint title_from (prev_alpha : bool) (s : string) : string :=
  match s with
  | EmptyString => EmptyString
  | String c s' =>
      String (if prev_alpha then Chr.lower c else Chr.upper c)
             (title_from (Chr.isalpha c) s')
  end.

Definition title (s : string) : string := title_from false s.

(** [sep.join(parts)] *)
Fixpoint join (sep : string) (parts : list string) : string :=
  match parts with
  | [] => EmptyString
  | [w] => w
  | w :: ws => w +:+ sep +:+ join sep ws
  end.

Definition head (s : string) : option ascii :=
  match s with EmptyString => None | String c _ => Some c end.

Fixpoint last (prev : option ascii) (s : string) : option ascii :=
  match s with
  | EmptyString => prev
  | String c s' => last (Some c) s'
  end.

End Str.

(** ** Regular expressions (the fragment of Python's [re] the engine uses)

    A backtracking matcher in continuation-passing style: alternatives are
    tried left to right and repetitions are greedy, which is the order in
    which [re] explores matches, so that [search] and [finditer] return the
    match Python returns. Every repetition in the source patterns is over a
    character class ([Rep]) or is an optional group ([Opt]); there is one
    capturing group at most ([Grp]). *)

Module Re.

Inductive regex : Type :=
| Eps
| Cls (p : ascii → bool)
| Seq (r1 r2 : regex)
| Alt (r1 r2 : regex)
| Rep (p : ascii → bool) (lo : nat) (hi : option nat)
| Opt (r : regex)
| Grp (r : regex)
| WordB
| Eos.

(** What a match in progress carries: the character before the cursor
    (for [\b]), the text after the cursor, and the text of group 1. *)
Definition cont (R : Type) : Type :=
  option ascii → string → option string → option R.

Definition may_take (hi : option nat) : bool :=
  match hi with Some O => false | _ => true end.

Definition one_less (hi : option nat) : option nat :=
  match hi with Some n => Some (pred n) | None => None end.

(** Greedy [p{lo,hi}]: take as many characters as possible, then give
    them back one at a time. *)
Fixpoint rep_match {R : Type} (p : ascii → bool) (lo : nat) (hi : option nat)
    (prev : option ascii) (s : string) (g : option string) (k : cont R)
    {struct s} : option R :=
  let stop := match lo with O => k prev s g | S _ => None end in
  match s with
  | EmptyString => stop
  | String c s' =>
      if p c && may_take hi then
        match rep_match p (pred lo) (one_less hi) (Some c) s' g k with
        | Some x => Some x
        | None => stop
        end
      else stop
  end.

Definition is_word (c : option ascii) : bool :=
  match c with Some x => Chr.isword x | None => false end.

Fixpoint rmatch {R : Type} (r : regex) (prev : option ascii) (s : string)
    (g : option string) (k : cont R) {struct r} : option R :=
  match r with
  | Eps => k prev s g
  | Cls p =>
      match s with
      | String c s' => if p c then k (Some c) s' g else None
      | EmptyString => None
      end
  | Seq r1 r2 =>
      rmatch r1 prev s g (fun prev' s' g' => rmatch r2 prev' s' g' k)
  | Alt r1 r2 =>
      match rmatch r1 prev s g k with
      | Some x => Some x
      | None => rmatch r2 prev s g k
      end
  | Rep p lo hi => rep_match p lo hi prev s g k
  | Opt r1 =>
      match rmatch r1 prev s g k with
      | Some x => Some x
      | None => k prev s g
      end
  | Grp r1 =>
      rmatch r1 prev s g
        (fun prev' s' _ =>
           k prev' s' (Some (Str.take (String.length s - String.length s') s)))
  | WordB =>
      if xorb (is_word prev) (is_word (Str.head s)) then k prev s g else None
  | Eos =>
      (* [$]: at the end, or before a newline that ends the string *)
      match s with
      | EmptyString => k prev s g
      | String c EmptyString => if Chr.chr "010" c then k prev s g else None
      | _ => None
      end
  end.

(** A match found by scanning: the text from its start, the text after
    it, and group 1. *)
Record found : Type := Found
  { at_start : string; after : string; group1 : option string }.

Definition matched (m : found) : string :=
  Str.take (String.length (at_start m) - String.length (after m)) (at_start m).

Definition match_here (r : regex) (prev : option ascii) (s : string)
  : option found :=
  rmatch r prev s None (fun _ s' g => Some (Found s s' g)).

(** [pattern.search]: the leftmost position at which a match starts. *)
Fixpoint search_from (r : regex) (prev : option ascii) (s : string)
  : option found :=
  match match_here r prev s with
  | Some m => Some m
  | None =>
      match s with
      | EmptyString => None
      | String c s' => search_from r (Some c) s'
      end
  end.

(** [bool(re.search(r, s))] *)
Definition search (r : regex) (s : string) : bool :=
  match search_from r None s with Some _ => true | None => false end.

(** [re.finditer]: successive non-overlapping matches, left to right.
    Each round consumes a character, so [S (len s)] rounds exhaust [s]. *)
Fixpoint finditer_from (fuel : nat) (r : regex) (prev : option ascii)
    (s : string) : list found :=
  match fuel with
  | O => []
  | S fuel' =>
      match search_from r prev s with
      | None => []
      | Some m =>
          m ::
          match matched m with
          | EmptyString =>
              match at_start m with
              | EmptyString => []
              | String c s' => finditer_from fuel' r (Some c) s'
              end
          | String _ _ =>
              finditer_from fuel' r (Str.last prev (matched m)) (after m)
          end
      end
  end.

Definition finditer (r : regex) (s : string) : list found :=
  finditer_from (S (String.length s)) r None s.

(** [re.findall] for a pattern with one group: the text of the group. *)
Definition findall (r : regex) (s : string) : list string :=
  List.map (fun m => match group1 m with Some g => g | None => EmptyString end)
           (finditer r s).

(** Concatenation of a list of patterns. *)
Fixpoint seqs (rs : list regex) : regex :=
  match rs with
  | [] => Eps
  | [r] => r
  | r :: rs' => Seq r (seqs rs')
  end.

(** Alternation of a non-empty list of patterns. *)
Fixpoint alts (rs : list regex) : regex :=
  match rs with
  | [] => Cls (fun _ => false)
  | [r] => r
  | r :: rs' => Alt r (alts rs')
  end.

(** A literal, and a literal under [re.IGNORECASE]. *)
Fixpoint lit (s : string) : regex :=
  match s with
  | EmptyString => Eps
  | String c EmptyString => Cls (Chr.chr c)
  | String c s' => Seq (Cls (Chr.chr c)) (lit s')
  end.

Definition chr_i (x : ascii) (c : ascii) : bool :=
  Ascii.eqb (Chr.lower c) (Chr.lower x).

Fixpoint lit_i (s : string) : regex :=
  match s with
  | EmptyString => Eps
  | String c EmptyString => Cls (chr_i c)
  | String c s' => Seq (Cls (chr_i c)) (lit_i s')
  end.

Definition plus (p : ascii → bool) : regex := Rep p 1 None.
Definition star (p : ascii → bool) : regex := Rep p 0 None.
Definition maybe (p : ascii → bool) : regex := Rep p 0 (Some 1).

(** [re.sub(r"\s+", " ", s)]: every maximal run of whitespace becomes one
    space. [in_run] says that the previous character was whitespace. *)
Fixpoint collapse_ws (in_run : bool) (s : string) : string :=
  match s with
  | EmptyString => EmptyString
  | String c s' =>
      if Chr.isspace c then
        if in_run then collapse_ws true s'
        else String " " (collapse_ws true s')
      else String c (collapse_ws false s')
  end.

(** [re.sub(cls, " ", s)] for a one-character class. *)
Definition sub_cls (p : ascii → bool) (s : string) : string :=
  Str.map (fun c => if p c then " "%char else c) s.

(** [re.split(cls, s)] for a one-character class. *)
Definition split_cls (p : ascii → bool) (s : string) : list string :=
  Str.split_on p s.

End Re.

(** ** parser.py *)

(** [_normalize]: lowercase and collapse whitespace. *)
Definition _normalize (text : string) : string :=
  if Str.is_empty text then ""
  else Str.strip (Re.collapse_ws false (Str.lower text)).

(** ** Data model *)

(** The kind of a content element (the ["type"] key of the dict). *)
Inductive Kind : Type := heading | bullet | table | image | text.

Global Instance Kind_eq_dec : EqDecision Kind.
Proof. solve_decision. Defined.

(** One parsed unit of the resume. A key the parser leaves out (an image
    has no ["content"], a table no ["font_size"]) is [None]. *)
Record Element : Type := mkElement
  { el_type : Kind;
    el_content : option string;
    el_font_size : option Q;
    el_page : option Z }.

Definition is_kind (k : Kind) (it : Element) : bool :=
  bool_decide (el_type it = k).

(** [it.get("content", "")] and [it.get("content") or ""] *)
Definition content_or_empty (it : Element) : string :=
  match el_content it with Some c => c | None => "" end.

(** ** The external natural-language backend *)

(** A spaCy token, as far as the engine reads it. *)
Record Token : Type := mkToken
  { is_punct : bool; is_space : bool; pos_ : string }.

(** A spaCy entity span. *)
Record Span : Type := mkSpan { span_text : string; label_ : string }.

(** A spaCy [Doc]: its text, its sentences (each a list of tokens), its
    tokens and its entities. *)
Record Doc : Type := mkDoc
  { doc_text : string;
    sents : list (list Token);
    tokens : list Token;
    ents : list Span }.

(** One entry of SkillNER's [full_matches] or [ngram_scored]. *)
Record SkillMatch : Type := mkSkillMatch
  { doc_node_value : string; score : option Q }.

Record Annotations : Type := mkAnnotations
  { full_matches : list SkillMatch; ngram_scored : list SkillMatch }.

(** The calls into spaCy, SkillNER and scikit-learn. Each is a function of
    its arguments; [Raise] is any exception of the call or of reading its
    result. *)
Class Backend : Type := mkBackend
  { nlp : string → py Doc;
    new_skill_extractor : py unit;
    skill_annotate : string → py Annotations;
    tfidf_cosine : string → string → py Q }.

(** ** Numbers *)

Open Scope Q_scope.

(** [max(lo, min(hi, x))] *)
Definition clamp (lo hi x : Q) : Q := Qmax lo (Qmin hi x).

(** [round(x)] on an exact value: to the nearest integer, ties to even. *)
Definition py_round (x : Q) : Z :=
  let f := Qfloor x in
  match Qcompare (2 * (x - inject_Z f)) 1 with
  | Lt => f
  | Gt => (f + 1)%Z
  | Eq => if Z.even f then f else (f + 1)%Z
  end.

Definition Qltb (x y : Q) : bool := negb (Qle_bool y x).

Close Scope Q_scope.

(** [int(s)] for a string of decimal digits. *)
Fixpoint int_of_digits (acc : Z) (s : string) : Z :=
  match s with
  | EmptyString => acc
  | String c s' => int_of_digits (10 * acc + Z.of_nat (Chr.code c - 48))%Z s'
  end.

(** [str(n)] *)
Definition str_of_nat (n : nat) : string :=
  DecimalString.NilZero.string_of_uint (Nat.to_uint n).

(** The double-quote character inside a message. *)
Definition dq : string := String (ascii_of_nat 34) EmptyString.

(** ** ats_calculator.py *)

Module ATS.

Import Re.

Inductive DebugValue : Type :=
| DStr (s : string)
| DInt (z : Z).

(** An [ATSCalculator] instance. [skill_extractor = false] stands for
    [self.skill_extractor is None]. *)
Record ATSCalculator : Type := mkATS
  { jd_text_raw : string;
    jd_text : string;
    skill_extractor : bool;
    jd_skills : gset string;
    jd_required_years : Z;
    debug_details : gmap string DebugValue }.

Definition set_skill_extractor (b : bool) (self : ATSCalculator) : ATSCalculator :=
  mkATS (jd_text_raw self) (jd_text self) b (jd_skills self)
        (jd_required_years self) (debug_details self).

(** [self.debug_details[key] = v] *)
Definition set_debug (key : string) (v : DebugValue) (self : ATSCalculator)
  : ATSCalculator :=
  mkATS (jd_text_raw self) (jd_text self) (skill_extractor self)
        (jd_skills self) (jd_required_years self)
        (<[key := v]> (debug_details self)).

Definition MIN_TEXT_LENGTH : nat := 50.

Definition SKILL_COVERAGE_WEIGHT : Q := Qmake 25 100.
Definition TFIDF_SIM_WEIGHT : Q := Qmake 20 100.
Definition KEYWORD_MATCH_WEIGHT : Q := Qmake 15 100.
Definition SECTIONS_WEIGHT : Q := Qmake 20 100.
Definition BULLETS_WEIGHT : Q := Qmake 10 100.
Definition READABILITY_VERBS_WEIGHT : Q := Qmake 10 100.

Definition IMPORTANT_KEYWORDS : list string :=
  ["experience"; "education"; "skills"; "projects"; "certifications";
   "leadership"; "achievements"; "technical"; "professional"; "summary"].

(** *** Validation helpers *)

(** [sum(c.isalnum() or c.isspace() for c in text) / max(1, len(text))] *)
Definition text_ratio (text : string) : Q :=
  Qmake (Z.of_nat (Str.countb (fun c => Chr.isalnum c || Chr.isspace c) text))
        (Pos.of_nat (Nat.max 1 (String.length text))).

Definition _validate_text (text name : string) : bool * string :=
  if Str.is_empty (Str.strip text) then
    (false, name +:+ " is empty or not a string")
  else if (String.length (Str.strip text) <? MIN_TEXT_LENGTH)%nat then
    (false, name +:+ " is too short (min " +:+ str_of_nat MIN_TEXT_LENGTH
            +:+ " chars)")
  else if Qltb (text_ratio text) (Qmake 1 2) then
    (false, name +:+ " contains too many non-text characters")
  else (true, "").

(** *** Skill extraction *)

(** The keyword set of the fallback branch of [_extract_skills]. *)
Definition common_skills : list string :=
  ["python"; "java"; "javascript"; "sql"; "html"; "css"; "react"; "angular";
   "machine learning"; "data analysis"; "docker"; "kubernetes"; "aws"; "azure"].

Definition score_or_zero (m : SkillMatch) : Q :=
  match score m with Some x => x | None => 0%Q end.

(** [{m['doc_node_value'].lower().strip() for m in ms}] *)
Definition node_values (ms : list SkillMatch) : gset string :=
  list_to_set (List.map (fun m => Str.strip (Str.lower (doc_node_value m))) ms).

(** The [try] block around SkillNER: the skills it adds, and whether the
    extractor survives the call. *)
Definition skillner_skills `{Backend} (text : string) : gset string * bool :=
  match skill_annotate text with
  | Ret annotations =>
      let full := node_values (full_matches annotations) in
      let ngram :=
        node_values
          (List.filter (fun m => Qltb (Qmake 7 10) (score_or_zero m))
                       (ngram_scored annotations)) in
      (full ∪ ngram, true)
  | Raise _ => (∅, false)
  end.

(** [{skill for skill in common_skills if skill in text_lower}] *)
Definition keyword_skills (text : string) : gset string :=
  let text_lower := Str.lower text in
  list_to_set (List.filter (fun skill => Str.contains text_lower skill)
                           common_skills).

Definition _extract_skills `{Backend} (self : ATSCalculator) (text : string)
  : gset string * ATSCalculator :=
  if Str.is_empty text || Str.is_empty (Str.strip text) then (∅, self)
  else
    let '(skills, self) :=
      if skill_extractor self then
        let '(found, alive) := skillner_skills text in
        (found, set_skill_extractor alive self)
      else (∅, self) in
    let skills :=
      if skill_extractor self then skills
      else skills ∪ keyword_skills text in
    (skills, self).

(** *** Experience extraction / bonus *)

(** [(\d+)\s*\+?\s*(?:years|yrs)\s+(?:of\s+)?experience] *)
Definition experience_regex : regex :=
  seqs [Grp (plus Chr.isdigit); star Chr.isspace; maybe (Chr.chr "+");
        star Chr.isspace; Alt (lit "years") (lit "yrs"); plus Chr.isspace;
        Opt (Seq (lit "of") (plus Chr.isspace)); lit "experience"].

(** [(20\d{2}|19\d{2})] *)
Definition year_regex : regex :=
  Grp (Alt (Seq (lit "20") (Rep Chr.isdigit 2 (Some 2)))
           (Seq (lit "19") (Rep Chr.isdigit 2 (Some 2)))).

(** [max(nums) if nums else 0] *)
Definition max_or_zero (nums : list Z) : Z :=
  match nums with
  | [] => 0
  | n :: ns => List.fold_left Z.max ns n
  end.

Definition min_of (n : Z) (ns : list Z) : Z := List.fold_left Z.min ns n.

Definition _extract_experience_requirements (text : string) : Z :=
  let text := _normalize text in
  let matches := findall experience_regex text in
  let nums :=
    List.map (int_of_digits 0)
             (List.filter (fun m => negb (Str.is_empty m)
                                    && Str.forallb Chr.isdigit m) matches) in
  max_or_zero nums.

Definition _estimate_years_from_resume (text : string) : Z :=
  let years := findall year_regex text in
  let yrs : gset Z := list_to_set (List.map (int_of_digits 0) years) in
  if (2 <=? size yrs)%nat then
    match elements yrs with
    | [] => 0
    | y :: ys =>
        let span := (List.fold_left Z.max ys y - min_of y ys)%Z in
        Z.max 0 (Z.min 40 span)
    end
  else 0%Z.

Definition _experience_bonus (self : ATSCalculator) (resume_text : string) : Q :=
  if (jd_required_years self <=? 0)%Z then 0%Q
  else
    let resume_years := _estimate_years_from_resume resume_text in
    if (jd_required_years self <=? resume_years)%Z then (Qmake 2 100) else 0%Q.

(** *** Content scoring (0.60) *)

(** [len(matched) / len(jd_skills)], 0 when the JD has no skills. *)
Definition skill_coverage (self : ATSCalculator) (resume_skills : gset string) : Q :=
  if (size (jd_skills self) =? 0)%nat then 0%Q
  else
    let matched_skills := jd_skills self ∩ resume_skills in
    Qmake (Z.of_nat (size matched_skills)) (Pos.of_nat (size (jd_skills self))).

(** The [try] block around the TF-IDF vectorizer. *)
Definition tfidf_component `{Backend} (self : ATSCalculator) (resume_norm : string) : Q :=
  match tfidf_cosine (jd_text self) resume_norm with
  | Ret sim => (TFIDF_SIM_WEIGHT * sim)%Q
  | Raise _ => 0%Q
  end.

(** The [try] block around the keyword match. *)
Definition keyword_component `{Backend} (resume_norm : string) : Q :=
  match nlp (Str.lower resume_norm) with
  | Ret doc =>
      let present_keywords :=
        List.filter (fun kw => Str.contains (doc_text doc) kw) IMPORTANT_KEYWORDS in
      let keyword_score :=
        Qmake (Z.of_nat (List.length present_keywords))
              (Pos.of_nat (List.length IMPORTANT_KEYWORDS)) in
      (KEYWORD_MATCH_WEIGHT * keyword_score)%Q
  | Raise _ => 0%Q
  end.

Definition _content_score `{Backend} (self : ATSCalculator) (resume_text : string)
  : py Q * ATSCalculator :=
  let resume_norm := _normalize resume_text in
  let '(resume_skills, self') := _extract_skills self resume_norm in
  let skill_component :=
    (SKILL_COVERAGE_WEIGHT * skill_coverage self' resume_skills)%Q in
  let exp_bonus := _experience_bonus self' resume_norm in
  let total_content :=
    (skill_component + tfidf_component self' resume_norm
     + keyword_component resume_norm + exp_bonus)%Q in
  (Ret (clamp 0%Q (Qmake 60 100) total_content), self').

(** *** Formatting scoring (0.40) *)

Definition required_sections : list string := ["skills"; "experience"; "education"].

Definition container_sections : list string :=
  ["experience"; "projects"; "project"; "education"].

Definition mem (x : string) (l : list string) : bool :=
  List.existsb (String.eqb x) l.

(** [[it.get("content", "").lower() for it in structure if it.get("type") == "heading"]] *)
Definition heading_texts (resume_structure : list Element) : list string :=
  List.map (fun it => Str.lower (content_or_empty it))
           (List.filter (is_kind heading) resume_structure).

Definition sections_component (resume_structure : list Element) : Q :=
  let present : gset string :=
    list_to_set (List.filter (fun h => mem h required_sections)
                             (heading_texts resume_structure)) in
  (SECTIONS_WEIGHT
   * Qmake (Z.of_nat (size present)) (Pos.of_nat (List.length required_sections)))%Q.

(** One round of the loop that fills [bullets_by_section]: the running
    [current] section and the counter. *)
Definition bullet_step (st : option string * gmap string nat) (it : Element)
  : option string * gmap string nat :=
  let '(current, bullets_by_section) := st in
  if is_kind heading it then
    let h := Str.lower (content_or_empty it) in
    if mem h container_sections then
      (Some h,
       match bullets_by_section !! h with
       | None => <[h := 0%nat]> bullets_by_section
       | Some _ => bullets_by_section
       end)
    else (None, bullets_by_section)
  else
    match current with
    | Some c =>
        if is_kind bullet it then
          (current, <[c := S (default 0%nat (bullets_by_section !! c))]> bullets_by_section)
        else st
    | None => st
    end.

Definition bullets_by_section (resume_structure : list Element) : gmap string nat :=
  snd (List.fold_left bullet_step resume_structure (None, ∅)).

Definition bullet_reward (acc : Q) (entry : string * nat) : Q :=
  let cnt := snd entry in
  let acc := if (2 <=? cnt)%nat then (acc + BULLETS_WEIGHT / 4)%Q else acc in
  if (4 <? cnt)%nat then (acc - BULLETS_WEIGHT / 10)%Q else acc.

Definition bullet_component (resume_structure : list Element) : Q :=
  clamp 0%Q BULLETS_WEIGHT
    (List.fold_left bullet_reward
       (map_to_list (bullets_by_section resume_structure)) 0%Q).

(** [not (t.is_punct or t.is_space)] *)
Definition is_content_token (t : Token) : bool :=
  negb (is_punct t || is_space t).

Definition avg_len (doc : Doc) : Q :=
  match sents doc with
  | [] => 0%Q
  | ss =>
      Qmake (Z.of_nat (list_sum (List.map (fun s => List.length (List.filter is_content_token s)) ss)))
            (Pos.of_nat (List.length ss))
  end.

(** The number of bullets whose first content token is a verb; the first
    failing [nlp] call raises. *)
Fixpoint verb_starts `{Backend} (resume_structure : list Element) : py nat :=
  match resume_structure with
  | [] => Ret 0%nat
  | it :: rest =>
      if is_kind bullet it then
        match nlp (content_or_empty it) with
        | Raise e => Raise e
        | Ret bdoc =>
            let first := List.find is_content_token (tokens bdoc) in
            let hit :=
              match first with
              | Some t => if String.eqb (pos_ t) "VERB" then 1%nat else 0%nat
              | None => 0%nat
              end in
            match verb_starts rest with
            | Raise e => Raise e
            | Ret n => Ret (hit + n)%nat
            end
        end
      else verb_starts rest
  end.

Definition read_component `{Backend} (resume_text : string)
    (resume_structure : list Element) : py Q :=
  match nlp resume_text with
  | Raise e => Raise e
  | Ret doc =>
      let a := avg_len doc in
      let r1 :=
        if Qle_bool 10 a && Qle_bool a 30
        then (READABILITY_VERBS_WEIGHT * Qmake 1 2)%Q else 0%Q in
      match verb_starts resume_structure with
      | Raise e => Raise e
      | Ret n =>
          let r2 :=
            if (3 <=? n)%nat
            then (r1 + READABILITY_VERBS_WEIGHT * Qmake 1 2)%Q else r1 in
          Ret (clamp 0%Q READABILITY_VERBS_WEIGHT r2)
      end
  end.

Definition _formatting_score `{Backend} (resume_text : string)
    (resume_structure : list Element) : py Q :=
  match read_component resume_text resume_structure with
  | Raise e => Raise e
  | Ret read =>
      let score :=
        (0 + sections_component resume_structure
         + bullet_component resume_structure + read)%Q in
      Ret (clamp 0%Q (Qmake 40 100) score)
  end.

(** *** Disqualifiers (hard fails) *)

(** [\b[A-Za-z0-9._%+-]+@[\w.-]+\.[A-Za-z]{2,}\b] *)
Definition email_regex : regex :=
  seqs [WordB; plus (fun c => Chr.isalnum c || Chr.one_of "._%+-" c);
        Cls (Chr.chr "@"); plus (fun c => Chr.isword c || Chr.one_of ".-" c);
        Cls (Chr.chr "."); Rep Chr.isalpha 2 None; WordB].

(** [[-.\s]] *)
Definition sep (c : ascii) : bool := Chr.one_of "-." c || Chr.isspace c.

(** [(\+\d{1,3}[-.\s]?)?\(?\d{1,5}\)?[-.\s]?\d{3}[-.\s]?\d{3,5}] *)
Definition phone_regex : regex :=
  seqs [Opt (Grp (seqs [Cls (Chr.chr "+"); Rep Chr.isdigit 1 (Some 3); maybe sep]));
        maybe (Chr.chr "("); Rep Chr.isdigit 1 (Some 5); maybe (Chr.chr ")");
        maybe sep; Rep Chr.isdigit 3 (Some 3); maybe sep;
        Rep Chr.isdigit 3 (Some 5)].

(** [[\w-]] *)
Definition slug (c : ascii) : bool := Chr.isword c || Chr.chr "-" c.

(** [linkedin\.com/in/[\w-]+] *)
Definition linkedin_regex : regex :=
  seqs [lit "linkedin"; Cls (Chr.chr "."); lit "com/in/"; plus slug].

(** [github\.com/[\w-]+] *)
Definition github_regex : regex :=
  seqs [lit "github"; Cls (Chr.chr "."); lit "com/"; plus slug].

(** [p[0].isupper()] for a non-empty [p] *)
Definition starts_upper (p : string) : bool :=
  match p with
  | String c _ => Chr.isupper c
  | EmptyString => false
  end.

(** [1 <= len(parts) <= 5 and any(p[0].isupper() for p in parts if p)] *)
Definition looks_like_name (content : string) : bool :=
  let parts := Str.split content in
  (1 <=? List.length parts)%nat && (List.length parts <=? 5)%nat
  && List.existsb starts_upper
       (List.filter (fun p => negb (Str.is_empty p)) parts).

Definition has_contact (content : string) : bool * bool :=
  let low := Str.lower content in
  (search email_regex content,
   search phone_regex content || search linkedin_regex low
   || search github_regex low).

Record ContactFlags : Type := mkFlags
  { has_name : bool; has_email : bool; has_phone_or_profile : bool }.

(** One round of the loop over the elements. *)
Definition contact_step (f : ContactFlags) (it : Element) : ContactFlags :=
  let content := Str.strip (content_or_empty it) in
  let name :=
    if is_kind heading it && negb (Str.is_empty content) then
      if looks_like_name content then true else has_name f
    else has_name f in
  let '(email, phone_or_profile) := has_contact content in
  mkFlags name
          (if email then true else has_email f)
          (if phone_or_profile then true else has_phone_or_profile f).

Definition has_table_or_image (resume_structure : list Element) : bool :=
  List.existsb (fun it => is_kind table it || is_kind image it) resume_structure.

Definition _check_disqualifiers (resume_structure : list Element) : bool * string :=
  if has_table_or_image resume_structure then
    (false, "Resume contains tables or images (not ATS-friendly)")
  else
    let f := List.fold_left contact_step resume_structure (mkFlags false false false) in
    if negb (has_name f && (has_email f || has_phone_or_profile f)) then
      (false, "Missing minimal contact information (name + email + phone or profile)")
    else (true, "").

(** *** Public API *)

(** [ATSCalculator(jd_text)]; a [ValueError] for an invalid description. *)
Definition __init__ `{Backend} (jd_text : string) : py ATSCalculator :=
  let '(ok, msg) := _validate_text jd_text "Job description" in
  if negb ok then Raise msg
  else
    let extractor :=
      match new_skill_extractor with Ret _ => true | Raise _ => false end in
    let self := mkATS jd_text (_normalize jd_text) extractor ∅ 0 ∅ in
    let '(skills, self) := _extract_skills self (ATS.jd_text self) in
    Ret (mkATS (jd_text_raw self) (ATS.jd_text self) (skill_extractor self)
               skills (_extract_experience_requirements (ATS.jd_text self)) ∅).

Definition is_nil {A : Type} (l : list A) : bool :=
  match l with [] => true | _ => false end.

(** [total_score]: the score and the instance after the call. *)
Definition total_score `{Backend} (self : ATSCalculator) (resume_text : string)
    (resume_structure : list Element) : Z * ATSCalculator :=
  let '(ok, msg) := _validate_text resume_text "Resume" in
  if negb ok then (0%Z, set_debug "error" (DStr msg) self)
  else if is_nil resume_structure then
    (0%Z, set_debug "error" (DStr "Invalid or empty resume structure") self)
  else
    let '(disq_ok, disq_reason) := _check_disqualifiers resume_structure in
    if negb disq_ok then (0%Z, set_debug "disqualified" (DStr disq_reason) self)
    else
      let '(content, self) := _content_score self resume_text in
      let failed e :=
        (0%Z, set_debug "error" (DStr ("ATS computation error: " +:+ e)) self) in
      match content with
      | Raise e => failed e
      | Ret content_score =>
          match _formatting_score resume_text resume_structure with
          | Raise e => failed e
          | Ret formatting_score =>
              let final := (content_score + formatting_score)%Q in
              let final_pct := py_round (final * 100) in
              (final_pct, set_debug "final_score" (DInt final_pct) self)
          end
      end.

End ATS.

(** ** suggest_skills.py *)

Module Suggest.

Import Re.

(** Common technical skills and keywords for pattern matching. *)
Definition COMMON_SKILLS_list : list string :=
  [ (* Programming Languages *)
    "python"; "java"; "javascript"; "typescript"; "c++"; "c#"; "c"; "ruby";
    "php"; "swift"; "kotlin"; "go"; "rust"; "scala"; "r"; "matlab"; "perl";
    "shell"; "bash"; "powershell";
    (* Web Technologies *)
    "html"; "css"; "react"; "angular"; "vue"; "node.js"; "express"; "django";
    "flask"; "spring"; "laravel"; "ruby on rails"; "asp.net"; ".net"; "jquery";
    "bootstrap"; "sass"; "less";
    (* Databases *)
    "sql"; "mysql"; "postgresql"; "mongodb"; "redis"; "elasticsearch";
    "oracle"; "sqlite"; "nosql"; "cassandra"; "dynamodb"; "firebase";
    (* Cloud & DevOps *)
    "aws"; "azure"; "gcp"; "docker"; "kubernetes"; "jenkins"; "git"; "github";
    "gitlab"; "terraform"; "ansible"; "chef"; "puppet"; "vagrant"; "linux";
    "unix"; "windows";
    (* Data Science & ML *)
    "machine learning"; "deep learning"; "tensorflow"; "pytorch"; "keras";
    "scikit-learn"; "pandas"; "numpy"; "matplotlib"; "seaborn"; "jupyter";
    "tableau"; "power bi"; "data analysis"; "data science"; "statistics";
    "excel";
    (* Mobile Development *)
    "ios"; "android"; "react native"; "flutter"; "xamarin"; "cordova"; "ionic";
    (* Other Technologies *)
    "api"; "rest"; "graphql"; "microservices"; "agile"; "scrum"; "kanban";
    "jira"; "confluence"; "slack"; "teams"; "zoom" ].

Definition COMMON_SKILLS : gset string := list_to_set COMMON_SKILLS_list.

(** [re.sub(r'[^\w\s]', ' ', text.lower()).strip()] *)
Definition clean_phrase (text : string) : string :=
  Str.strip (sub_cls (fun c => negb (Chr.isword c || Chr.isspace c))
                     (Str.lower text)).

(** [skill and len(skill) <= 100] *)
Definition sane (skill : string) : bool :=
  negb (Str.is_empty skill) && (String.length skill <=? 100)%nat.

(** The cleaned values of a list of SkillNER matches. *)
Definition cleaned_matches (ms : list SkillMatch) : gset string :=
  list_to_set
    (List.filter sane (List.map (fun m => clean_phrase (doc_node_value m)) ms)).

(** The [try] block around SkillNER: the skills it adds, and whether the
    extractor survives the call. *)
Definition skillner_skills `{Backend} (text : string) : gset string * bool :=
  match skill_annotate text with
  | Ret annotations =>
      let full_matches := cleaned_matches (full_matches annotations) in
      let ngram_matches :=
        cleaned_matches
          (List.filter (fun m => Qltb (Qmake 7 10) (ATS.score_or_zero m))
                       (ngram_scored annotations)) in
      (full_matches ∪ ngram_matches, true)
  | Raise _ => (∅, false)
  end.

(** The [try] block around spaCy NER in the fallback branch. *)
Definition ner_skills `{Backend} (text : string) : gset string :=
  match nlp text with
  | Ret doc =>
      list_to_set
        (List.map (fun ent => Str.lower (clean_phrase (span_text ent)))
           (List.filter
              (fun ent =>
                 ATS.mem (label_ ent) ["PERSON"; "ORG"; "PRODUCT"]
                 && sane (clean_phrase (span_text ent))
                 && bool_decide (Str.lower (clean_phrase (span_text ent)) ∈ COMMON_SKILLS))
              (ents doc)))
  | Raise _ => ∅
  end.

(** [{skill for skill in COMMON_SKILLS if skill in text_lower}] *)
Definition vocabulary_skills (text : string) : gset string :=
  let text_lower := Str.lower text in
  list_to_set (List.filter (fun skill => Str.contains text_lower skill)
                           COMMON_SKILLS_list).

(** [[\w\s/&+.\-/]] *)
Definition phrase_char (c : ascii) : bool :=
  Chr.isword c || Chr.isspace c || Chr.one_of "/&+.-/" c.

(** [(?:\.|,|;|$)] *)
Definition phrase_end : regex :=
  alts [Cls (Chr.chr "."); Cls (Chr.chr ","); Cls (Chr.chr ";"); Eos].

(** [[\s:]+] *)
Definition colon_gap : regex := plus (fun c => Chr.isspace c || Chr.chr ":" c).

(** The two [skill_patterns], compiled under [re.IGNORECASE]. *)
Definition skill_patterns : list regex :=
  [ seqs [WordB;
          alts [lit_i "proficient in"; lit_i "experience with";
                lit_i "skilled in"; lit_i "expertise in"; lit_i "knowledge of";
                lit_i "familiar with"];
          colon_gap; Grp (plus phrase_char); phrase_end];
    seqs [WordB;
          alts [Seq (lit_i "technologie") (maybe (chr_i "s"));
                Seq (lit_i "skill") (maybe (chr_i "s"));
                Seq (lit_i "tool") (maybe (chr_i "s"))];
          colon_gap; Grp (plus phrase_char); phrase_end] ].

(** [[clean_phrase(s) for s in re.split(r'[,/&+]', group) if s.strip()]] *)
Definition phrase_tokens (group : string) : list string :=
  List.map clean_phrase
    (List.filter (fun s => negb (Str.is_empty (Str.strip s)))
                 (split_cls (Chr.one_of ",/&+") group)).

(** Everything the pattern layer adds for [text]. *)
Definition pattern_tokens (text : string) : list string :=
  List.concat
    (List.map (fun pattern =>
                 List.concat
                   (List.map (fun m => phrase_tokens (default "" (group1 m)))
                             (finditer pattern text)))
              skill_patterns).

(** [extract_skills]: the skill set and the module-level
    [skill_extractor] flag after the call ([false] stands for [None]). *)
Definition extract_skills `{Backend} (skill_extractor : bool) (text : string)
  : gset string * bool :=
  if Str.is_empty text then (∅, skill_extractor)
  else if Str.is_empty (Str.strip text) then (∅, skill_extractor)
  else
    let '(skills, skill_extractor) :=
      if skill_extractor then skillner_skills text else (∅, false) in
    let skills :=
      if skill_extractor then skills
      else skills ∪ ner_skills text ∪ vocabulary_skills text in
    (skills ∪ list_to_set (pattern_tokens text), skill_extractor).

(** The sort key [(-importance, skill.lower())] of an entry of
    [skill_details]. *)
Record SkillDetail : Type := mkDetail { skill : string; importance : nat }.

Definition key_le (x y : SkillDetail) : Prop :=
  (importance y < importance x)%nat
  ∨ (importance x = importance y
     ∧ String.leb (Str.lower (skill x)) (Str.lower (skill y)) = true).

Global Instance key_le_dec (x y : SkillDetail) : Decision (key_le x y).
Proof. unfold key_le. apply _. Defined.

(** [get_missing_skills]: the list and the module flag after the call. *)
Definition get_missing_skills `{Backend} (skill_extractor : bool)
    (jd_text resume_text : string) : list string * bool :=
  if Str.is_empty jd_text || Str.is_empty resume_text then ([], skill_extractor)
  else
    let '(jd_skills, skill_extractor) := extract_skills skill_extractor jd_text in
    let '(resume_skills, skill_extractor) := extract_skills skill_extractor resume_text in
    let missing_skills := jd_skills ∖ resume_skills in
    let filtered_missing :=
      List.filter
        (fun skill => bool_decide (Str.lower skill ∈ COMMON_SKILLS)
                      && (2 <? String.length skill)%nat)
        (elements missing_skills) in
    let skill_details :=
      List.map (fun skill =>
                  mkDetail skill (Str.count (Str.lower jd_text) (Str.lower skill)))
               filtered_missing in
    let sorted_skills := merge_sort key_le skill_details in
    (List.map skill (List.firstn 20 sorted_skills), skill_extractor).

(** The order that the sort key induces on skill strings:
    [jd_text.lower().count(skill.lower())], larger first, then
    [skill.lower()] ascending. *)
Definition occurrences (jd_text skill : string) : nat :=
  Str.count (Str.lower jd_text) (Str.lower skill).

Definition ranked_before (jd_text : string) (a b : string) : Prop :=
  (occurrences jd_text b < occurrences jd_text a)%nat
  ∨ (occurrences jd_text a = occurrences jd_text b
     ∧ String.leb (Str.lower a) (Str.lower b) = true).

End Suggest.

(** ** restructure_advice.py *)

Module Advice.

Import Re.

(** An [{'issue': ..., 'advice': ...}] record. *)
Record Issue : Type := mkIssue { issue : string; advice : string }.

(** [\b[A-Za-z0-9._%+-]+@[A-Za-z0-9.-]+\.[A-Z|a-z]{2,}\b], [re.IGNORECASE] *)
Definition EMAIL_REGEX : regex :=
  seqs [WordB; plus (fun c => Chr.isalnum c || Chr.one_of "._%+-" c);
        Cls (Chr.chr "@"); plus (fun c => Chr.isalnum c || Chr.one_of ".-" c);
        Cls (Chr.chr ".");
        Rep (fun c => Chr.isalpha c || Chr.chr "|" c) 2 None; WordB].

(** [(\+\d{1,3}[-.\s]?)?\(?\d{3}\)?[-.\s]?\d{3}[-.\s]?\d{4}] *)
Definition PHONE_REGEX : regex :=
  seqs [Opt (Grp (seqs [Cls (Chr.chr "+"); Rep Chr.isdigit 1 (Some 3);
                        maybe ATS.sep]));
        maybe (Chr.chr "("); Rep Chr.isdigit 3 (Some 3); maybe (Chr.chr ")");
        maybe ATS.sep; Rep Chr.isdigit 3 (Some 3); maybe ATS.sep;
        Rep Chr.isdigit 4 (Some 4)].

Definition LINKEDIN_REGEX : regex := ATS.linkedin_regex.
Definition GITHUB_REGEX : regex := ATS.github_regex.

Definition MIN_FONT_SIZE : nat := 9.
Definition MAX_BULLETS_PER_SECTION : nat := 5.

Record ContactInfo : Type := mkContactInfo
  { name : bool; email : bool; phone : bool; profile : bool }.

Definition value_error : string := "resume_text must be a non-empty string".

(** [2 <= len(parts) <= 4 and all(part and part[0].isupper() for part in parts)] *)
Definition capitalized_name (name_parts : list string) : bool :=
  (2 <=? List.length name_parts)%nat && (List.length name_parts <=? 4)%nat
  && List.forallb ATS.starts_upper name_parts.

(** [s.split('\n')[0]] *)
Definition first_line (s : string) : string :=
  match Str.split_on (Chr.chr "010") s with
  | l :: _ => l
  | [] => ""
  end.

Definition check_contact_info (resume_text : string)
  : py (bool * ContactInfo * list Issue) :=
  if Str.is_empty (Str.strip resume_text) then Raise value_error
  else
    let first_100_chars := Str.strip (Str.take 100 resume_text) in
    let name_parts := Str.split (Str.strip (first_line first_100_chars)) in
    let contact_info :=
      mkContactInfo
        (capitalized_name name_parts)
        (search EMAIL_REGEX resume_text)
        (search PHONE_REGEX resume_text)
        (search LINKEDIN_REGEX resume_text || search GITHUB_REGEX resume_text) in
    let issues :=
      (if negb (name contact_info) then
         [mkIssue "Missing or unclear name at the top of the resume"
                  "Add your full name prominently at the top of your resume."]
       else [])
      ++ (if negb (email contact_info) && negb (phone contact_info) then
            [mkIssue "Missing both email and phone number"
                     "Include at least one reliable contact method (email or phone)."]
          else [])
      ++ (if negb (profile contact_info) then
            [mkIssue "No professional profile links"
                     "Consider adding your LinkedIn profile or personal website."]
          else []) in
    let has_min_contact :=
      name contact_info && (email contact_info || phone contact_info) in
    Ret (has_min_contact, contact_info, issues).

Definition required_sections : list (list string) :=
  [ ["experience"; "work experience"; "employment history"];
    ["education"; "academic background"];
    ["skills"; "technical skills"; "key skills"] ].

(** The issue for a section group none of whose variants occurs in the
    text ([re.escape(variant)] searched under [re.IGNORECASE]). *)
Definition missing_section (resume_text : string) (section_group : list string)
  : list Issue :=
  let section_name := List.hd "" section_group in
  let found :=
    List.existsb (fun variant => search (lit_i variant) resume_text) section_group in
  if found then []
  else
    let display_name := Str.title section_name in
    [mkIssue ("Missing " +:+ dq +:+ display_name +:+ dq +:+ " section")
             ("Add a clearly labeled " +:+ dq +:+ display_name +:+ dq +:+ " section.")].

(** [item.get('content')] is truthy *)
Definition has_content (item : Element) : bool :=
  match el_content item with
  | Some c => negb (Str.is_empty c)
  | None => false
  end.

(** [part[0].isupper() for part in name_parts if part] all hold, and
    there are 2 to 4 parts *)
Definition heading_is_name (first_heading : string) : bool :=
  let name_parts := Str.split first_heading in
  (2 <=? List.length name_parts)%nat && (List.length name_parts <=? 4)%nat
  && List.forallb ATS.starts_upper
       (List.filter (fun part => negb (Str.is_empty part)) name_parts).

Definition name_not_at_top : Issue :=
  mkIssue "Name/contact information not at the top"
          "Place your name and contact information at the top of the first page.".

Definition check_sections (resume_text : string) (resume_structure : list Element)
  : py (list Issue) :=
  if Str.is_empty (Str.strip resume_text) then Raise value_error
  else
    let issues := List.concat (List.map (missing_section resume_text) required_sections) in
    let headings :=
      List.map (fun item => Str.strip (Str.lower (content_or_empty item)))
               (List.filter (fun item => is_kind heading item && has_content item)
                            resume_structure) in
    match headings with
    | [] => Ret issues
    | first_heading :: _ =>
        if negb (heading_is_name first_heading)
        then Ret (issues ++ [name_not_at_top])
        else Ret issues
    end.

(** [f'{x:.1f}'] on an exact value, ties to even. *)
Definition fmt_1f (x : Q) : string :=
  let tenths := Z.to_nat (py_round (Qabs x * 10)) in
  (if Qltb x 0 then "-" else "")
  +:+ str_of_nat (tenths / 10) +:+ "." +:+ str_of_nat (tenths mod 10).

Definition Qmin_list (x : Q) (xs : list Q) : Q := List.fold_left Qmin xs x.
Definition Qmax_list (x : Q) (xs : list Q) : Q := List.fold_left Qmax xs x.

Definition font_issues (font_sizes : list Q) : list Issue :=
  match font_sizes with
  | [] => []
  | x :: xs =>
      let min_size := Qmin_list x xs in
      let max_size := Qmax_list x xs in
      (if Qltb min_size (inject_Z (Z.of_nat MIN_FONT_SIZE)) then
         [mkIssue ("Font size too small (" +:+ fmt_1f min_size +:+ "pt)")
                  ("Increase all text to at least " +:+ str_of_nat (MIN_FONT_SIZE + 1)
                   +:+ "pt for better readability.")]
       else [])
      ++ (if Qltb 6 (max_size - min_size) then
            [mkIssue "Inconsistent font sizes"
                     "Limit font size variations to 2-3 sizes for better visual hierarchy."]
          else [])
  end.

Definition count_kind (k : Kind) (resume_structure : list Element) : nat :=
  List.length (List.filter (is_kind k) resume_structure).

Definition check_formatting (resume_structure : list Element) : py (list Issue) :=
  let font_sizes :=
    List.concat (List.map (fun item => match el_font_size item with
                                       | Some f => [f]
                                       | None => []
                                       end) resume_structure) in
  Ret (font_issues font_sizes
       ++ (if (0 <? count_kind table resume_structure)%nat then
             [mkIssue "Uses tables or columns"
                      "Avoid tables and columns as they may cause parsing issues with ATS."]
           else [])
       ++ (if (0 <? count_kind image resume_structure)%nat then
             [mkIssue "Contains images or graphics"
                      "Remove images, icons, and graphics as they are not ATS-friendly."]
           else [])).

(** [section_bullets]: a dict in insertion order. *)
Fixpoint assign (key : string) (v : nat) (d : list (string * nat))
  : list (string * nat) :=
  match d with
  | [] => [(key, v)]
  | (k, w) :: d' => if String.eqb k key then (k, v) :: d' else (k, w) :: assign key v d'
  end.

Fixpoint lookup_default (key : string) (d : list (string * nat)) : nat :=
  match d with
  | [] => 0
  | (k, w) :: d' => if String.eqb k key then w else lookup_default key d'
  end.

Definition tracked_heading (h : string) : bool :=
  List.existsb (Str.contains h) ["experience"; "work experience"; "projects"; "education"].

Definition experience_heading (h : string) : bool :=
  List.existsb (Str.contains h) ["experience"; "work experience"].

Definition section_step (st : option string * list (string * nat)) (item : Element)
  : option string * list (string * nat) :=
  let '(current_section, section_bullets) := st in
  if is_kind heading item then
    let h := Str.strip (Str.lower (content_or_empty item)) in
    if tracked_heading h then (Some h, assign h 0 section_bullets)
    else (None, section_bullets)
  else
    match current_section with
    | Some c =>
        if is_kind bullet item && negb (Str.is_empty c) then
          (current_section, assign c (S (lookup_default c section_bullets)) section_bullets)
        else st
    | None => st
    end.

Definition bullet_issue (entry : string * nat) : list Issue :=
  let '(section_name, bullet_count) := entry in
  if (bullet_count =? 0)%nat && experience_heading section_name then
    [mkIssue ("No bullet points in " +:+ dq +:+ section_name +:+ dq +:+ " section")
             "Use 3-5 bullet points per position to highlight achievements."]
  else if (MAX_BULLETS_PER_SECTION <? bullet_count)%nat then
    [mkIssue ("Too many bullet points (" +:+ str_of_nat bullet_count +:+ ") in "
              +:+ dq +:+ section_name +:+ dq)
             ("Limit to " +:+ str_of_nat MAX_BULLETS_PER_SECTION
              +:+ " bullet points per position for better readability.")]
  else [].

Definition action_verbs : list string :=
  ["achieved"; "managed"; "increased"; "developed"; "led"; "implemented";
   "created"; "improved"; "reduced"; "designed"; "launched"; "spearheaded";
   "built"; "optimized"; "analyzed"; "collaborated"; "mentored"; "taught";
   "coordinated"; "executed"; "facilitated"; "generated"; "resolved"].

(** [\b(achieved|...|resolved)\w*\b], [re.IGNORECASE] *)
Definition action_verb_pattern : regex :=
  seqs [WordB; Grp (alts (List.map lit_i action_verbs)); star Chr.isword; WordB].

Definition check_content_quality (resume_text : string)
    (resume_structure : list Element) : py (list Issue) :=
  if Str.is_empty (Str.strip resume_text) then Raise value_error
  else
    let section_bullets :=
      snd (List.fold_left section_step resume_structure (None, [])) in
    Ret (List.concat (List.map bullet_issue section_bullets)
         ++ (if negb (search action_verb_pattern resume_text) then
               [mkIssue "Weak action verbs"
                        ("Start bullet points with strong action verbs (e.g., "
                         +:+ dq +:+ "Led" +:+ dq +:+ ", " +:+ dq +:+ "Developed"
                         +:+ dq +:+ ", " +:+ dq +:+ "Increased" +:+ dq +:+ ").")]
             else [])).

Definition no_major_issues : Issue :=
  mkIssue "No major issues detected"
          "Your resume appears to be well-structured for ATS. Consider having it reviewed by a professional for further optimization.".

Definition analyze_resume_structure (resume_text : string)
    (resume_structure : list Element) : py (list Issue) :=
  if Str.is_empty resume_text then
    Ret [mkIssue "Invalid resume text" "Provide valid resume text for analysis."]
  else
    match check_contact_info resume_text with
    | Raise e => Raise e
    | Ret (_, _, contact_issues) =>
    match check_sections resume_text resume_structure with
    | Raise e => Raise e
    | Ret section_issues =>
    match check_formatting resume_structure with
    | Raise e => Raise e
    | Ret formatting_issues =>
    match check_content_quality resume_text resume_structure with
    | Raise e => Raise e
    | Ret content_issues =>
        let all_issues :=
          contact_issues ++ section_issues ++ formatting_issues ++ content_issues in
        match all_issues with
        | [] => Ret [no_major_issues]
        | _ => Ret all_issues
        end
    end end end end.

End Advice.

(** ** parser.py: reading documents

    pdfplumber and python-docx are external: what they return for a file is
    the [Documents] class. An element keeps the keys the engine reads
    ([type], [content], [font_size], [page]); [table_num], [image_num],
    [bbox], [width] and [height] are left out. *)

Module Parser.

(** [s.endswith(k)] *)
Definition endswith (k s : string) : bool :=
  (String.length k <=? String.length s)%nat
  && String.eqb (Str.drop (String.length s - String.length k) s) k.

(** [s.isupper()]: some cased character, and no lowercase one. *)
Definition isupper (s : string) : bool :=
  Str.forallb (fun c => negb (Chr.islower c)) s
  && negb (Str.forallb (fun c => negb (Chr.isupper c)) s).

(** The bullet character U+2022, as its UTF-8 bytes. *)
Definition bullet_mark : string :=
  String (ascii_of_nat 226) (String (ascii_of_nat 128)
    (String (ascii_of_nat 162) EmptyString)).

(** [s.startswith(("•", "-", "*"))] *)
Definition starts_like_bullet (s : string) : bool :=
  Str.startswith bullet_mark s || Str.startswith "-" s || Str.startswith "*" s.

Definition newline : string := String (ascii_of_nat 10) EmptyString.

(** [extract_jd_from_text] *)
Definition extract_jd_from_text (jd_text : string) : string := Str.strip jd_text.

(** A pdfplumber character: its [text] and [size]. *)
Record PdfChar : Type := mkPdfChar { char_text : string; char_size : Q }.

(** A pdfplumber image; the parser reads nothing the engine uses. *)
Record PdfImage : Type := mkPdfImage { img_width : Q; img_height : Q }.

(** A pdfplumber page: [page.chars], [page.extract_text()],
    [page.extract_tables()] (rows of cells, a cell may be [None]) and
    [page.images]. *)
Record PdfPage : Type := mkPdfPage
  { page_chars : list PdfChar;
    page_text : py (option string);
    page_tables : py (list (list (list (option string))));
    page_images : py (list PdfImage) }.

(** A python-docx paragraph: its text, the name of its style, and
    [para.runs[0].font.size.pt] when the paragraph has a run whose font
    carries a size. *)
Record Paragraph : Type := mkParagraph
  { para_text : string; style_name : string; first_run_pt : option Q }.

Class Documents : Type := mkDocuments
  { pdf_open : string → py (list PdfPage);
    docx_open : string → py (list Paragraph) }.

(** The type of a text line of a PDF page. *)
Definition line_type (current_line : string) : Kind :=
  let line_stripped := Str.strip current_line in
  if endswith ":" line_stripped || isupper line_stripped then heading
  else if starts_like_bullet line_stripped then bullet
  else text.

(** [round(x, 1)] on an exact value. *)
Definition round1 (x : Q) : Q := Qmake (py_round (x * 10)) 10.

Definition Qsum (xs : list Q) : Q := List.fold_left Qplus xs 0%Q.

(** [round(sum(sizes) / len(sizes), 1) if sizes else 0] *)
Definition avg_size (current_fonts : list Q) : Q :=
  match current_fonts with
  | [] => 0%Q
  | _ => round1 (Qsum current_fonts / inject_Z (Z.of_nat (List.length current_fonts)))
  end.

(** What the loop does at a newline character: a non-blank line becomes
    an element. *)
Definition end_line (page_num : Z) (current_line : string) (current_fonts : list Q)
    (structure : list Element) : list Element :=
  if negb (Str.is_empty (Str.strip current_line)) then
    structure ++ [mkElement (line_type current_line) (Some current_line)
                            (Some (avg_size current_fonts)) (Some page_num)]
  else structure.

(** The loop over [page.chars]. *)
Fixpoint line_loop (page_num : Z) (chars : list PdfChar) (current_line : string)
    (current_fonts : list Q) (structure : list Element) : list Element :=
  match chars with
  | [] => structure
  | char :: rest =>
      if String.eqb (char_text char) newline then
        line_loop page_num rest "" []
                  (end_line page_num current_line current_fonts structure)
      else
        line_loop page_num rest (current_line +:+ char_text char)
                  (current_fonts ++ [char_size char]) structure
  end.

(** [str(cell or "").strip()] *)
Definition cell_text (cell : option string) : string :=
  Str.strip (match cell with Some c => c | None => "" end).

Definition cell_truthy (cell : option string) : bool :=
  match cell with Some c => negb (Str.is_empty c) | None => false end.

(** [table and any(any(cell for cell in row if cell) for row in table)] *)
Definition table_has_content (tbl : list (list (option string))) : bool :=
  negb (ATS.is_nil tbl)
  && List.existsb (fun row => List.existsb cell_truthy row) tbl.

Definition table_text (tbl : list (list (option string))) : string :=
  Str.join newline
    (List.map (fun row => Str.join " | " (List.map cell_text row)) tbl).

(** [str(n)] for an integer. *)
Definition str_of_Z (n : Z) : string :=
  if (n <? 0)%Z then "-" +:+ str_of_nat (Z.to_nat (- n)) else str_of_nat (Z.to_nat n).

(** The loop over the tables of a page, [table_num] counting from 1. *)
Fixpoint table_loop (page_num table_num : Z)
    (tables : list (list (list (option string))))
    (acc : string * list Element) : string * list Element :=
  match tables with
  | [] => acc
  | tbl :: rest =>
      let '(text_, structure) := acc in
      table_loop page_num (table_num + 1) rest
        (if table_has_content tbl then
           (text_ +:+ newline +:+ "[Table " +:+ str_of_Z table_num +:+ " on page "
            +:+ str_of_Z page_num +:+ "]" +:+ newline +:+ table_text tbl +:+ newline,
            structure ++ [mkElement table (Some (table_text tbl)) None (Some page_num)])
         else acc)
  end.

(** The loop over the images of a page. *)
Fixpoint image_loop (page_num img_num : Z) (images : list PdfImage)
    (acc : string * list Element) : string * list Element :=
  match images with
  | [] => acc
  | _ :: rest =>
      let '(text_, structure) := acc in
      image_loop page_num (img_num + 1) rest
        (text_ +:+ newline +:+ "[Image " +:+ str_of_Z img_num +:+ " on page "
         +:+ str_of_Z page_num +:+ "]" +:+ newline,
         structure ++ [mkElement image None None (Some page_num)])
  end.

(** One round of the loop over the pages. An exception of
    [extract_text] leaves the function; one of [extract_tables] or
    [page.images] is printed and skipped. *)
Definition parse_page (page_num : Z) (page : PdfPage) (acc : string * list Element)
  : py (string * list Element) :=
  match page_text page with
  | Raise e => Raise e
  | Ret extracted =>
      let '(text_, structure) := acc in
      let acc :=
        match extracted with
        | Some (String c t) =>
            (text_ +:+ String c t +:+ newline,
             line_loop page_num (page_chars page) "" [] structure)
        | _ => acc
        end in
      let acc :=
        match page_tables page with
        | Ret tables => table_loop page_num 1 tables acc
        | Raise _ => acc
        end in
      let acc :=
        match page_images page with
        | Ret images => image_loop page_num 1 images acc
        | Raise _ => acc
        end in
      Ret acc
  end.

Fixpoint page_loop (page_num : Z) (pages : list PdfPage) (acc : string * list Element)
  : py (string * list Element) :=
  match pages with
  | [] => Ret acc
  | page :: rest =>
      match parse_page page_num page acc with
      | Raise e => Raise e
      | Ret acc' => page_loop (page_num + 1) rest acc'
      end
  end.

(** [parse_pdf_resume]; every failure is a [ValueError]. *)
Definition parse_pdf_resume `{Documents} (file_bytes : string)
  : py (string * list Element) :=
  let failed e := Raise ("Failed to parse PDF: " +:+ e) in
  match pdf_open file_bytes with
  | Raise e => failed e
  | Ret pages =>
      match page_loop 1 pages ("", []) with
      | Raise e => failed e
      | Ret (text_, structure) => Ret (Str.strip text_, structure)
      end
  end.

Definition DEFAULT_FONT_SIZE : Q := 11.

(** The element of one paragraph and the text it adds; nothing for a
    blank paragraph. *)
Definition paragraph_element (para : Paragraph) : option Element :=
  let clean_text := Str.strip (para_text para) in
  if Str.is_empty clean_text then None
  else
    let font_size :=
      match first_run_pt para with
      | Some pt => if Qltb 0 pt then pt else DEFAULT_FONT_SIZE
      | None => DEFAULT_FONT_SIZE
      end in
    let style := Str.lower (style_name para) in
    let element_type :=
      if Str.contains style "heading" then heading
      else if starts_like_bullet clean_text then bullet
      else text in
    Some (mkElement element_type (Some clean_text) (Some font_size) (Some 1%Z)).

Fixpoint paragraph_loop (paras : list Paragraph) (acc : string * list Element)
  : string * list Element :=
  match paras with
  | [] => acc
  | para :: rest =>
      let '(text_, structure) := acc in
      paragraph_loop rest
        (match paragraph_element para with
         | Some element =>
             (text_ +:+ content_or_empty element +:+ newline, structure ++ [element])
         | None => acc
         end)
  end.

(** [parse_docx_resume]; a failure to open the document is not caught. *)
Definition parse_docx_resume `{Documents} (file_bytes : string)
  : py (string * list Element) :=
  match docx_open file_bytes with
  | Raise e => Raise e
  | Ret paras =>
      let '(text_, structure) := paragraph_loop paras ("", []) in
      Ret (Str.strip text_, structure)
  end.

(** An uploaded file: its name and its bytes. *)
Record UploadFile : Type := mkUpload { filename : string; file_bytes : string }.

Inductive Format : Type := PDF | DOCX.

(** The parser that [parse_resume] picks for a file name. *)
Definition format_of (filename : string) : option Format :=
  if endswith ".pdf" (Str.lower filename) then Some PDF
  else if endswith ".docx" (Str.lower filename) then Some DOCX
  else None.

(** [parse_resume]; every failure is a [ValueError]. *)
Definition parse_resume `{Documents} (file : UploadFile) : py (string * list Element) :=
  let parsed :=
    match format_of (filename file) with
    | Some PDF => parse_pdf_resume (file_bytes file)
    | Some DOCX => parse_docx_resume (file_bytes file)
    | None => Raise "Unsupported file type. Please upload PDF (recommended) or DOCX."
    end in
  match parsed with
  | Raise e => Raise ("Error parsing file: " +:+ e)
  | Ret r => Ret r
  end.

End Parser.

(** ** main.py: the request handler

    The clock is external: the time of the request is an argument of
    [check_rate_limit], and the outcomes of the four timeout comparisons of
    [process_resume_and_jd] are the record [Clock]. PyPDF2 is the class
    [PageCounter]; the successive results of [await file.read(...)] are a
    list. An [HTTPException] is [Raise] of its status code and error. *)

Module Main.

Definition RATE_LIMIT : nat := 10.
Definition RATE_LIMIT_WINDOW : Q := 60.
Definition MAX_FILE_SIZE : Z := 5 * 1024 * 1024.
Definition ALLOWED_EXTENSIONS : list string := ["pdf"; "docx"].

(** What [check_rate_limit] reads of a request: [request.client] ([None],
    or its [host], itself possibly [None]) and the [X-Forwarded-For]
    header. *)
Record Request : Type := mkRequest
  { client : option (option string); forwarded_for : option string }.

(** [value or "unknown"] *)
Definition or_unknown (value : option string) : string :=
  match value with
  | Some (String c v) => String c v
  | _ => "unknown"
  end.

Definition client_ip (request : Request) : string :=
  match client request with
  | None =>
      match forwarded_for request with
      | Some (String c f) =>
          Str.strip (List.hd "" (Str.split_on (Chr.chr ",") (String c f)))
      | _ => "unknown"
      end
  | Some host => or_unknown host
  end.

(** [int(x)]: truncation toward zero. *)
Definition int_of_Q (x : Q) : Z := Z.quot (Qnum x) (Zpos (Qden x)).

(** The body of the [try] block of [check_rate_limit]: the outcome and
    [request_logs] after it. *)
Definition rate_limit_body (request : Request) (current_time : Q)
    (request_logs : gmap string (list Q)) : py unit * gmap string (list Q) :=
  let ip := client_ip request in
  let request_logs :=
    match request_logs !! ip with
    | None => <[ip := []]> request_logs
    | Some _ => request_logs
    end in
  let window_start := (current_time - RATE_LIMIT_WINDOW)%Q in
  let kept :=
    List.filter (fun t => Qltb window_start t) (default [] (request_logs !! ip)) in
  let request_logs := <[ip := kept]> request_logs in
  if (RATE_LIMIT <=? List.length kept)%nat then
    let retry_after :=
      int_of_Q (RATE_LIMIT_WINDOW - (current_time - List.hd 0%Q kept)) in
    (Raise ("429 Rate limit exceeded: Too many requests. Please try again in "
            +:+ Parser.str_of_Z retry_after +:+ " seconds."),
     request_logs)
  else (Ret tt, <[ip := kept ++ [current_time]]> request_logs).

(** [check_rate_limit]: the [except Exception] clause prints whatever the
    body raised and returns. *)
Definition check_rate_limit (request : Request) (current_time : Q)
    (request_logs : gmap string (list Q)) : py unit * gmap string (list Q) :=
  let '(outcome, request_logs) := rate_limit_body request current_time request_logs in
  (match outcome with
   | Ret _ => Ret tt
   | Raise _ => Ret tt
   end, request_logs).

(** PyPDF2: [len(PdfReader(io.BytesIO(content)).pages)]. *)
Class PageCounter : Type := mkPageCounter { pdf_page_count : string → py nat }.

(** The loop that reads the file in chunks; [reads] are the results of
    the successive [file.read] calls, none left meaning end of file. *)
Fixpoint read_chunks (reads : list (py string)) (file_size : Z)
    (chunks : list string) : py (list string) :=
  match reads with
  | [] => Ret chunks
  | Raise _ :: _ => Raise "400 File read error"
  | Ret chunk :: rest =>
      if Str.is_empty chunk then Ret chunks
      else
        let file_size := (file_size + Z.of_nat (String.length chunk))%Z in
        let chunks := chunks ++ [chunk] in
        if (MAX_FILE_SIZE <? file_size)%Z then Raise "413 File too large"
        else read_chunks rest file_size chunks
  end.

(** [filename.split(".")[-1].lower()] *)
Definition file_extension (filename : string) : string :=
  Str.lower (List.last (Str.split_on (Chr.chr ".") filename) "").

(** [b''.join(chunks)] *)
Definition join_chunks (chunks : list string) : string :=
  List.fold_right String.append "" chunks.

(** [validate_file]: the content the file pointer is reset to. *)
Definition validate_file `{PageCounter} (filename : string)
    (reads : list (py string)) : py string :=
  if Str.is_empty filename then Raise "400 No file provided"
  else if negb (Str.contains filename ".") then Raise "400 Invalid file"
  else if negb (ATS.mem (file_extension filename) ALLOWED_EXTENSIONS) then
    Raise "400 Invalid file type"
  else
    match read_chunks reads 0 [] with
    | Raise e => Raise e
    | Ret chunks =>
        let file_content := join_chunks chunks in
        if String.eqb (file_extension filename) "pdf" then
          match pdf_page_count file_content with
          | Ret pages =>
              if (2 <? pages)%nat then Raise "400 Resume too long"
              else Ret file_content
          | Raise _ => Ret file_content
          end
        else Ret file_content
    end.

(** The outcomes of the four comparisons of elapsed time with the
    timeout budget, in the order the handler makes them. *)
Record Clock : Type := mkClock
  { late_after_parsing : bool;
    late_before_skills : bool;
    late_before_score : bool;
    late_before_advice : bool }.

Record AnalysisResponse : Type := mkResponse
  { success : bool;
    response_jd_text : option string;
    response_resume_text : string;
    response_resume_structure : list Element;
    ats_score : Z;
    suggested_skills : list string;
    improvement_recommendation : list Advice.Issue }.

(** The analysis of [process_resume_and_jd]: what [ats_score],
    [suggested_skills] and [issues] hold when the response is built, and
    the [skill_extractor] flag of [suggest_skills] after it. Whatever the
    [try] block raises is printed and the values keep what they had. *)
Definition analysis `{Backend} (clock : Clock) (skill_extractor : bool)
    (jd_text : option string) (resume_text : string)
    (resume_structure : list Element)
  : (Z * list string * list Advice.Issue) * bool :=
  match jd_text with
  | Some jd =>
      if Str.is_empty jd || Str.is_empty (Str.strip jd) then
        ((0%Z, [], []), skill_extractor)
      else if late_before_skills clock then ((0%Z, [], []), skill_extractor)
      else
        let '(suggested, skill_extractor) :=
          Suggest.get_missing_skills skill_extractor jd resume_text in
        if late_before_score clock then ((0%Z, suggested, []), skill_extractor)
        else
          match ATS.__init__ jd with
          | Raise _ => ((0%Z, suggested, []), skill_extractor)
          | Ret ats =>
              let score := fst (ATS.total_score ats resume_text resume_structure) in
              if late_before_advice clock then
                ((score, suggested, []), skill_extractor)
              else
                match Advice.analyze_resume_structure resume_text resume_structure with
                | Raise _ => ((score, suggested, []), skill_extractor)
                | Ret issues => ((score, suggested, issues), skill_extractor)
                end
          end
  | None => ((0%Z, [], []), skill_extractor)
  end.

(** What a request changes: the rate-limit log and the extractor flag of
    [suggest_skills]. *)
Record Server : Type := mkServer
  { request_logs : gmap string (list Q); suggest_extractor : bool }.

(** [process_resume_and_jd]: the response or the HTTP error, and the
    server state after the request. *)
Definition process_resume_and_jd `{Backend} `{Parser.Documents} `{PageCounter}
    (jd_text : option string) (filename : string) (reads : list (py string))
    (request : option Request) (current_time : Q) (clock : Clock)
    (server : Server) : py AnalysisResponse * Server :=
  let logs :=
    match request with
    | Some r => snd (check_rate_limit r current_time (request_logs server))
    | None => request_logs server
    end in
  let server := mkServer logs (suggest_extractor server) in
  match validate_file filename reads with
  | Raise e => (Raise e, server)
  | Ret file_content =>
      match Parser.parse_resume (Parser.mkUpload filename file_content) with
      | Raise e => (Raise ("400 Error parsing resume: " +:+ e), server)
      | Ret (resume_text, resume_structure) =>
          if late_after_parsing clock then
            (Raise "408 Request timed out during resume parsing.", server)
          else
            let '((score, suggested, issues), flag) :=
              analysis clock (suggest_extractor server) jd_text resume_text
                       resume_structure in
            (Ret (mkResponse true jd_text resume_text resume_structure score
                             suggested issues),
             mkServer logs flag)
      end
  end.

End Main.

(** ** Shapes of text *)

Module Shape.

(** Every whitespace character of [s] is a space, no two are adjacent,
    and, when [after_space] holds, [s] does not start with one. *)
Fixpoint single_spaced (after_space : bool) (s : string) : bool :=
  match s with
  | EmptyString => true
  | String c s' =>
      if Chr.isspace c then
        Ascii.eqb c " " && negb after_space && single_spaced true s'
      else single_spaced false s'
  end.

(** [\w] or [\s] *)
Definition word_or_space (c : ascii) : bool := Chr.isword c || Chr.isspace c.

End Shape.

(** ** A reference backend

    A small deterministic stand-in for the external libraries, used to run
    the engine on concrete inputs: SkillNER is unavailable, a token is a
    whitespace-separated word, a sentence ends at a word that ends in a
    full stop, and the TF-IDF cosine is 0. *)

Module Demo.

Definition verbs : list string :=
  ["developed"; "worked"; "built"; "led"; "managed"; "designed"].

Definition word_token (w : string) : Token :=
  mkToken (Str.forallb (fun c => negb (Chr.isalnum c)) w) false
          (if ATS.mem (Str.lower w) verbs then "VERB" else "NOUN").

(** A word that ends a sentence: its last character is a full stop, an
    exclamation mark or a question mark. *)
Definition ends_sentence (w : string) : bool :=
  match Str.last None w with
  | Some c => Chr.one_of ".!?" c
  | None => false
  end.

(** The words of a text grouped into sentences; [cur] holds the words of
    the sentence in progress, last word first. *)
Fixpoint sentences_of (ws : list string) (cur : list string) : list (list string) :=
  match ws with
  | [] => match cur with [] => [] | _ => [List.rev cur] end
  | w :: ws' =>
      if ends_sentence w then List.rev (w :: cur) :: sentences_of ws' []
      else sentences_of ws' (w :: cur)
  end.

Definition simple_doc (text : string) : Doc :=
  let ss := List.map (List.map word_token) (sentences_of (Str.split text) []) in
  mkDoc text ss (List.concat ss) [].

Definition simple_backend : Backend :=
  mkBackend (fun t => Ret (simple_doc t))
            (Raise "SkillNER is not installed")
            (fun _ => Raise "SkillNER is not installed")
            (fun _ _ => Ret 0%Q).

Definition el (k : Kind) (content : string) (size : Z) : Element :=
  mkElement k (Some content) (Some (inject_Z size)) None.

(** The same backend with a TF-IDF vectorizer that fails. *)
Definition failing_tfidf_backend : Backend :=
  mkBackend (fun t => Ret (simple_doc t))
            (Raise "SkillNER is not installed")
            (fun _ => Raise "SkillNER is not installed")
            (fun _ _ => Raise "empty vocabulary").

Definition jd : string :=
  "We are hiring a developer with python, java, sql, html, css, react, docker and aws skills for our team.".

(** The instance [ATSCalculator(jd)] builds on a backend. *)
Definition new_calc (B : Backend) (jd_text : string) : ATS.ATSCalculator :=
  match @ATS.__init__ B jd_text with
  | Ret self => self
  | Raise _ => ATS.mkATS jd_text "" false ∅ 0 ∅
  end.

Definition calc : ATS.ATSCalculator := new_calc simple_backend jd.

(** A resume text of one sentence of 30 words. *)
Definition resume : string :=
  "John Doe john@email.com seasoned engineer who designed tested shipped and maintained large distributed billing systems for retail banks while mentoring junior colleagues and writing clear documentation for every release cycle".

Definition structure : list Element :=
  [el heading "John Doe" 14; el text "john@email.com" 11;
   el heading "Experience" 12;
   el bullet "Designed distributed billing systems" 11;
   el bullet "Mentored junior colleagues" 11].

(** A structure whose only heading has a token in lower case. *)
Definition lowercase_name_structure : list Element :=
  [el heading "John doe" 14; el text "john@email.com" 11].

(** A job description that names its skills in upper case. *)
Definition uppercase_jd : string :=
  "We need SQL. Strong SQL and more SQL. Some rust is a plus.".


End Demo.

(** ** The job profile

    What an [ATSCalculator] caches of its job description: the normalized
    text, the skill set and the required years. The remaining fields are
    the raw text, the diagnostics and the extractor handle. *)
Definition job_profile (self : ATS.ATSCalculator) : string * gset string * Z :=
  (ATS.jd_text self, ATS.jd_skills self, ATS.jd_required_years self).

(** [skillCoverage] of a resume text: the coverage [_content_score]
    computes, from the skills it extracts from the normalized text. *)
Definition resume_coverage `{Backend} (self : ATS.ATSCalculator)
    (resume_text : string) : Q :=
  let resume_norm := _normalize resume_text in
  let '(resume_skills, self') := ATS._extract_skills self resume_norm in
  ATS.skill_coverage self' resume_skills.

(** The part of the content score that does not come from skill
    coverage: similarity, keyword presence and the experience bonus. *)
Definition other_content `{Backend} (self : ATS.ATSCalculator)
    (resume_text : string) : Q :=
  let resume_norm := _normalize resume_text in
  (ATS.tfidf_component self resume_norm + ATS.keyword_component resume_norm
   + ATS._experience_bonus self resume_norm)%Q.

(** ** The claims' own wording, for comparison with the code *)

Module Claimed.

(** The name condition as the specification words it: 1 to 5
    whitespace-separated tokens, each starting with an uppercase letter. *)
Definition name_condition (content : string) : bool :=
  let parts := Str.split content in
  (1 <=? List.length parts)%nat && (List.length parts <=? 5)%nat
  && List.forallb ATS.starts_upper parts.

Definition heading_is_name (it : Element) : bool :=
  is_kind heading it && name_condition (Str.strip (content_or_empty it)).

(** The ranking as the specification words it: the literal occurrence
    count of the skill string in the job-description text, larger first,
    then alphabetically. *)
Definition ranked_before (jd_text : string) (a b : string) : Prop :=
  (Str.count jd_text b < Str.count jd_text a)%nat
  ∨ (Str.count jd_text a = Str.count jd_text b ∧ String.leb a b = true).

(** The text-validation failures as the specification lists them: the
    text is blank, shorter than 50 characters once trimmed, or less than
    half of its characters are alphanumeric or whitespace. *)
Definition fails_validation (text : string) : Prop :=
  Str.strip text = ""
  ∨ (String.length (Str.strip text) < ATS.MIN_TEXT_LENGTH)%nat
  ∨ (ATS.text_ratio text < Qmake 1 2)%Q.

End Claimed.

(** * Properties *)

(** ** Characters and strings *)

Lemma isupper_lower (c : ascii) : Chr.isupper (Chr.lower c) = false.
Proof. destruct c as [[] [] [] [] [] [] [] []]; reflexivity. Qed.

Lemma lower_lower (c : ascii) : Chr.lower (Chr.lower c) = Chr.lower c.
Proof. destruct c as [[] [] [] [] [] [] [] []]; reflexivity. Qed.

Lemma isspace_lower (c : ascii) : Chr.isspace (Chr.lower c) = Chr.isspace c.
Proof. destruct c as [[] [] [] [] [] [] [] []]; reflexivity. Qed.

Lemma is_empty_true (s : string) : Str.is_empty s = true ↔ s = "".
Proof. destruct s; simpl; split; congruence. Qed.

Lemma is_empty_false (s : string) : Str.is_empty s = false ↔ s ≠ "".
Proof. destruct s; simpl; split; congruence. Qed.

Section StringPredicates.

Variable p : ascii → bool.

Lemma forallb_map (f : ascii → ascii) (s : string) :
  (∀ c, p (f c) = true) → Str.forallb p (Str.map f s) = true.
Proof. intros Hf. induction s as [|c s IH]; simpl; [done|]. by rewrite Hf, IH. Qed.

Lemma forallb_lstrip (s : string) :
  Str.forallb p s = true → Str.forallb p (Str.lstrip s) = true.
Proof.
  induction s as [|c s IH]; simpl; [done|].
  intros [Hc Hs]%andb_prop. destruct (Chr.isspace c); [auto|].
  simpl. by rewrite Hc, Hs.
Qed.

Lemma forallb_rstrip (s : string) :
  Str.forallb p s = true → Str.forallb p (Str.rstrip s) = true.
Proof.
  induction s as [|c s IH]; simpl; [done|].
  intros [Hc Hs]%andb_prop. specialize (IH Hs).
  destruct (Str.rstrip s) as [|d r].
  - destruct (Chr.isspace c); simpl; [done|]. by rewrite Hc.
  - change (Str.forallb p (String c (String d r))) with (p c && Str.forallb p (String d r)).
    by rewrite Hc, IH.
Qed.

Lemma forallb_strip (s : string) :
  Str.forallb p s = true → Str.forallb p (Str.strip s) = true.
Proof. intros. unfold Str.strip. by apply forallb_lstrip, forallb_rstrip. Qed.



End StringPredicates.

Lemma lower_no_upper (s : string) :
  Str.forallb (fun c => negb (Chr.isupper c)) (Str.lower s) = true.
Proof. apply forallb_map. intros c. by rewrite isupper_lower. Qed.

(** ** Structural advice: the name-at-top rule *)





(** ** Numbers *)

Lemma clamp_bounds (lo hi x : Q) : (lo <= hi)%Q → (lo <= clamp lo hi x <= hi)%Q.
Proof.
  intros H. unfold clamp. split.
  - apply Q.le_max_l.
  - apply Q.max_lub; [done|]. apply Q.le_min_l.
Qed.


Lemma py_round_bounds (x : Q) (n : Z) :
  (0 <= x)%Q → (x <= inject_Z n)%Q → (0 <= py_round x <= n)%Z.
Proof.
  intros H0 Hn. unfold py_round.
  assert (0 <= Qfloor x)%Z as Hf0.
  { change 0%Z with (Qfloor 0). by apply Qfloor_resp_le. }
  assert (Qfloor x <= n)%Z as Hfn.
  { rewrite <- (Qfloor_Z n). by apply Qfloor_resp_le. }
  destruct (Z.eq_dec (Qfloor x) n) as [Heq|Hne].
  - assert (x == inject_Z n)%Q as Hx.
    { apply Qle_antisym; [done|]. rewrite <- Heq. apply Qfloor_le. }
    assert (Qcompare (2 * (x - inject_Z (Qfloor x))) 1 = Lt) as ->; [|lia].
    rewrite <- Qlt_alt, Heq, Hx. unfold Qminus. rewrite Qplus_opp_r. done.
  - destruct (Qcompare _ _); [destruct (Z.even _)| |]; lia.
Qed.

Lemma Qltb_lt (x y : Q) : Qltb x y = true ↔ (x < y)%Q.
Proof.
  unfold Qltb. rewrite negb_true_iff. split.
  - intros H. apply Qnot_le_lt. intros Hle. apply Qle_bool_iff in Hle. congruence.
  - intros H. destruct (Qle_bool y x) eqn:E; [|done].
    apply Qle_bool_iff in E. by apply Qle_not_lt in E.
Qed.

(** ** The Score Aggregator *)

Section Aggregator.

Context `{B : Backend}.

Lemma content_score_returns (self : ATS.ATSCalculator) (resume_text : string) :
  ∃ c, fst (ATS._content_score self resume_text) = Ret c ∧ (0 <= c <= Qmake 60 100)%Q.
Proof.
  unfold ATS._content_score.
  destruct (ATS._extract_skills self (_normalize resume_text)) as [rs self'].
  eexists. split; [reflexivity|]. by apply clamp_bounds.
Qed.

Lemma formatting_score_bounds (resume_text : string) (rs : list Element) (f : Q) :
  ATS._formatting_score resume_text rs = Ret f → (0 <= f <= Qmake 40 100)%Q.
Proof.
  unfold ATS._formatting_score.
  destruct (ATS.read_component resume_text rs); [|done].
  intros [= <-]. by apply clamp_bounds.
Qed.

Lemma validate_text_fails (text name : string) :
  Claimed.fails_validation text → fst (ATS._validate_text text name) = false.
Proof.
  unfold ATS._validate_text. intros [H|[H|H]].
  - by rewrite H.
  - destruct (Str.is_empty _); [done|].
    apply Nat.ltb_lt in H. by rewrite H.
  - destruct (Str.is_empty _); [done|].
    destruct (_ <? _)%nat; [done|].
    apply Qltb_lt in H. by rewrite H.
Qed.

(** C1: whenever the Disqualifier Gate fails on the structure,
    [total_score] returns 0, whatever the resume text says; the instance it
    leaves behind is the old one with one diagnostic entry added, so neither
    sub-score was computed (no [final_score] entry, no backend call). *)
Theorem total_score_disqualified (self : ATS.ATSCalculator) (resume_text : string)
    (resume_structure : list Element) :
  fst (ATS._check_disqualifiers resume_structure) = false →
  ∃ key reason,
    ATS.total_score self resume_text resume_structure
    = (0%Z, ATS.set_debug key (ATS.DStr reason) self)
    ∧ key ≠ "final_score".
Proof.
  intros Hgate. unfold ATS.total_score.
  destruct (ATS._validate_text resume_text "Resume") as [ok msg].
  destruct ok; cbn [negb]; [|by exists "error", msg].
  destruct resume_structure as [|it rs]; cbn [ATS.is_nil]; [by eexists "error", _|].
  destruct (ATS._check_disqualifiers (it :: rs)) as [disq_ok reason].
  cbn in Hgate. subst disq_ok. cbn [negb]. by exists "disqualified", reason.
Qed.

(** C2: [total_score] returns an integer between 0 and 100 (on every
    structure, the non-empty ones included), and exactly 0 on a resume text
    that fails validation: blank, shorter than 50 characters once trimmed,
    or with fewer than half of its characters alphanumeric or whitespace. *)
Theorem total_score_range (self : ATS.ATSCalculator) (resume_text : string)
    (resume_structure : list Element) :
  (0 <= fst (ATS.total_score self resume_text resume_structure) <= 100)%Z
  ∧ (Claimed.fails_validation resume_text →
     fst (ATS.total_score self resume_text resume_structure) = 0%Z).
Proof.
  split.
  - unfold ATS.total_score.
    destruct (ATS._validate_text resume_text "Resume") as [ok msg].
    destruct ok; cbn [negb]; [|cbn; lia].
    destruct (ATS.is_nil resume_structure); [cbn; lia|].
    destruct (ATS._check_disqualifiers resume_structure) as [disq_ok reason].
    destruct disq_ok; cbn [negb]; [|cbn; lia].
    destruct (content_score_returns self resume_text) as (c & Hc & Hc0 & Hc1).
    destruct (ATS._content_score self resume_text) as [content self'].
    cbn in Hc. subst content.
    destruct (ATS._formatting_score resume_text resume_structure) as [f|e] eqn:Hf;
      [|cbn; lia].
    apply formatting_score_bounds in Hf as [Hf0 Hf1].
    cbn [fst]. apply py_round_bounds.
    + apply Qmult_le_0_compat; [|done].
      apply (Qplus_le_compat 0 c 0 f); done.
    + apply Qle_trans with ((Qmake 60 100 + Qmake 40 100) * 100)%Q; [|done].
      apply Qmult_le_compat_r; [|done]. by apply Qplus_le_compat.
  - intros H. unfold ATS.total_score.
    pose proof (validate_text_fails resume_text "Resume" H) as Hv.
    destruct (ATS._validate_text resume_text "Resume") as [ok msg].
    cbn in Hv. by subst ok.
Qed.

End Aggregator.

(** ** The Disqualifier Gate *)

Section Gate.

Local Abbreviation stripped it := (Str.strip (content_or_empty it)).
Local Abbreviation names it :=
  (is_kind heading it && negb (Str.is_empty (stripped it))
   && ATS.looks_like_name (stripped it)).
Local Abbreviation mails it := (fst (ATS.has_contact (stripped it))).
Local Abbreviation calls it := (snd (ATS.has_contact (stripped it))).

Lemma contact_loop (rs : list Element) (f : ATS.ContactFlags) :
  List.fold_left ATS.contact_step rs f
  = ATS.mkFlags (ATS.has_name f || List.existsb (fun it => names it) rs)
                (ATS.has_email f || List.existsb (fun it => mails it) rs)
                (ATS.has_phone_or_profile f || List.existsb (fun it => calls it) rs).
Proof.
  revert f. induction rs as [|it rs IH]; intros f; cbn [List.fold_left List.existsb].
  - destruct f. cbn. by rewrite !orb_false_r.
  - rewrite IH. unfold ATS.contact_step.
    destruct (ATS.has_contact (stripped it)) as [e p]. cbn [fst snd ATS.has_name ATS.has_email ATS.has_phone_or_profile].
    f_equal.
    + destruct (is_kind heading it && negb (Str.is_empty (stripped it))); cbn [andb].
      * destruct (ATS.looks_like_name (stripped it)); cbn [orb]; [by rewrite orb_true_r|done].
      * done.
    + destruct e; cbn [orb]; [by rewrite orb_true_r|done].
    + destruct p; cbn [orb]; [by rewrite orb_true_r|done].
Qed.

Lemma looks_like_name_spec (content : string) :
  ATS.looks_like_name content = true ↔
  (1 <= List.length (Str.split content) <= 5)%nat
  ∧ ∃ p, In p (Str.split content) ∧ ATS.starts_upper p = true.
Proof.
  unfold ATS.looks_like_name. rewrite !andb_true_iff, Nat.leb_le, Nat.leb_le.
  rewrite existsb_exists. split.
  - intros [[H1 H5] (p & Hin & Hp)]. apply filter_In in Hin as [Hin _].
    split; [lia|]. by exists p.
  - intros [[H1 H5] (p & Hin & Hp)]. split; [done|]. exists p. split; [|done].
    apply filter_In. split; [done|]. by destruct p.
Qed.

Lemma names_spec (it : Element) :
  names it = true ↔
  el_type it = heading
  ∧ (1 <= List.length (Str.split (stripped it)) <= 5)%nat
  ∧ ∃ p, In p (Str.split (stripped it)) ∧ ATS.starts_upper p = true.
Proof.
  rewrite !andb_true_iff, looks_like_name_spec. unfold is_kind.
  rewrite bool_decide_eq_true, negb_true_iff. split; [naive_solver|].
  intros (Hk & Hlen & Hp). repeat split; try done; try lia.
  destruct (stripped it); [cbn in Hlen; lia|done].
Qed.

Lemma no_table_or_image (rs : list Element) :
  ATS.has_table_or_image rs = false ↔
  ∀ it, In it rs → el_type it ≠ table ∧ el_type it ≠ image.
Proof.
  unfold ATS.has_table_or_image. split.
  - intros H it Hin.
    assert (is_kind table it || is_kind image it = false) as Hk.
    { destruct (is_kind table it || is_kind image it) eqn:E; [|done].
      rewrite <- H. symmetry. apply existsb_exists. eauto. }
    apply orb_false_elim in Hk as [H1 H2]. unfold is_kind in *.
    by rewrite bool_decide_eq_false in H1, H2.
  - intros H. destruct (List.existsb _ rs) eqn:E; [|done].
    apply existsb_exists in E as (it & Hin & Hk). destruct (H it Hin) as [H1 H2].
    unfold is_kind in Hk. apply orb_prop in Hk as [Hk|Hk];
      by rewrite bool_decide_eq_true in Hk.
Qed.

(** C3, as amended: the gate passes exactly when no element is a table or
    an image, some heading has 1 to 5 whitespace-separated tokens of which
    at least one starts with an uppercase letter, and some element matches
    the email pattern, the phone pattern, or (lowercased) the LinkedIn or
    GitHub profile pattern. *)
Theorem gate_passes_iff (resume_structure : list Element) :
  fst (ATS._check_disqualifiers resume_structure) = true ↔
  (∀ it, In it resume_structure → el_type it ≠ table ∧ el_type it ≠ image)
  ∧ (∃ it, In it resume_structure ∧ el_type it = heading
       ∧ (1 <= List.length (Str.split (Str.strip (content_or_empty it))) <= 5)%nat
       ∧ ∃ p, In p (Str.split (Str.strip (content_or_empty it)))
              ∧ ATS.starts_upper p = true)
  ∧ (∃ it, In it resume_structure
       ∧ (Re.search ATS.email_regex (Str.strip (content_or_empty it)) = true
          ∨ Re.search ATS.phone_regex (Str.strip (content_or_empty it)) = true
          ∨ Re.search ATS.linkedin_regex (Str.lower (Str.strip (content_or_empty it))) = true
          ∨ Re.search ATS.github_regex (Str.lower (Str.strip (content_or_empty it))) = true)).
Proof.
  unfold ATS._check_disqualifiers. rewrite <- no_table_or_image, contact_loop.
  cbn [ATS.has_name ATS.has_email ATS.has_phone_or_profile orb].
  destruct (ATS.has_table_or_image resume_structure); [cbn; naive_solver|].
  set (n := List.existsb _ resume_structure).
  set (e := List.existsb (fun it => mails it) resume_structure).
  set (c := List.existsb (fun it => calls it) resume_structure).
  assert (n = true ↔ ∃ it, In it resume_structure ∧ el_type it = heading
       ∧ (1 <= List.length (Str.split (stripped it)) <= 5)%nat
       ∧ ∃ p, In p (Str.split (stripped it)) ∧ ATS.starts_upper p = true) as Hn.
  { unfold n. rewrite existsb_exists. by setoid_rewrite names_spec. }
  assert (e || c = true ↔ ∃ it, In it resume_structure
       ∧ (Re.search ATS.email_regex (stripped it) = true
          ∨ Re.search ATS.phone_regex (stripped it) = true
          ∨ Re.search ATS.linkedin_regex (Str.lower (stripped it)) = true
          ∨ Re.search ATS.github_regex (Str.lower (stripped it)) = true)) as Hc.
  { unfold e, c. rewrite orb_true_iff, !existsb_exists. unfold ATS.has_contact.
    cbn [fst snd]. setoid_rewrite orb_true_iff. setoid_rewrite orb_true_iff.
    naive_solver. }
  rewrite <- Hn, <- Hc.
  destruct n, (e || c); cbn; naive_solver.
Qed.

End Gate.

(** ** Repeated scoring *)

Section Idempotence.

Context `{B : Backend}.

Lemma extract_skills_keeps_profile (self : ATS.ATSCalculator) (t : string) :
  job_profile (snd (ATS._extract_skills self t)) = job_profile self.
Proof.
  unfold ATS._extract_skills.
  destruct (Str.is_empty t || Str.is_empty (Str.strip t)); [done|].
  destruct (ATS.skill_extractor self); [|done].
  by destruct (ATS.skillner_skills t).
Qed.

(** A second extraction from the same text, by an instance whose extractor
    is in the state the first extraction left, finds the same skills and
    leaves the extractor as it is. *)
Lemma extract_skills_again (a b : ATS.ATSCalculator) (t : string) :
  ATS.skill_extractor b = ATS.skill_extractor (snd (ATS._extract_skills a t)) →
  fst (ATS._extract_skills b t) = fst (ATS._extract_skills a t)
  ∧ snd (ATS._extract_skills b t) = b.
Proof.
  unfold ATS._extract_skills, ATS.skillner_skills.
  destruct (Str.is_empty t || Str.is_empty (Str.strip t)); [done|].
  destruct a as [ar at_ [] ak ay ad], b as [br bt bf bk by_ bd];
    cbn [ATS.skill_extractor ATS.set_skill_extractor ATS.jd_text_raw ATS.jd_text
         ATS.jd_skills ATS.jd_required_years ATS.debug_details fst snd].
  - destruct (skill_annotate t) as [ann|e];
      cbn [ATS.skill_extractor ATS.set_skill_extractor ATS.jd_text_raw ATS.jd_text
           ATS.jd_skills ATS.jd_required_years ATS.debug_details fst snd];
      intros ->; done.
  - intros ->. done.
Qed.

Lemma content_score_again (a b : ATS.ATSCalculator) (t : string) :
  job_profile b = job_profile a →
  ATS.skill_extractor b = ATS.skill_extractor (snd (ATS._content_score a t)) →
  fst (ATS._content_score b t) = fst (ATS._content_score a t)
  ∧ snd (ATS._content_score b t) = b.
Proof.
  unfold ATS._content_score. intros Hp Hf.
  pose proof (extract_skills_keeps_profile a (_normalize t)) as Ha.
  pose proof (extract_skills_again a b (_normalize t)) as Hb.
  destruct (ATS._extract_skills a (_normalize t)) as [sa a'].
  destruct (ATS._extract_skills b (_normalize t)) as [sb b'].
  cbn [fst snd] in *. destruct (Hb Hf) as [-> ->]. split; [|done].
  assert (job_profile b = job_profile a') as He by congruence.
  unfold job_profile in He. injection He as Ht Hk Hy.
  unfold ATS.skill_coverage, ATS.tfidf_component, ATS._experience_bonus.
  by rewrite Ht, Hk, Hy.
Qed.

Lemma content_score_keeps_profile (self : ATS.ATSCalculator) (t : string) :
  job_profile (snd (ATS._content_score self t)) = job_profile self.
Proof.
  unfold ATS._content_score.
  pose proof (extract_skills_keeps_profile self (_normalize t)) as H.
  by destruct (ATS._extract_skills self (_normalize t)).
Qed.

(** C8: scoring the same resume text and structure a second time on the
    instance the first call left behind (its job profile unchanged) returns
    the same integer. *)
Theorem total_score_idempotent (self : ATS.ATSCalculator) (resume_text : string)
    (resume_structure : list Element) :
  job_profile (snd (ATS.total_score self resume_text resume_structure))
  = job_profile self
  ∧ fst (ATS.total_score (snd (ATS.total_score self resume_text resume_structure))
                         resume_text resume_structure)
    = fst (ATS.total_score self resume_text resume_structure).
Proof.
  unfold ATS.total_score.
  destruct (ATS._validate_text resume_text "Resume") as [ok msg].
  destruct ok; cbn [negb]; [|done].
  destruct (ATS.is_nil resume_structure); [done|].
  destruct (ATS._check_disqualifiers resume_structure) as [disq_ok reason].
  destruct disq_ok; cbn [negb]; [|done].
  pose proof (content_score_keeps_profile self resume_text) as Hp.
  pose proof (content_score_returns self resume_text) as (c & Hc & _).
  pose proof (λ b, content_score_again self b resume_text) as Hagain.
  destruct (ATS._content_score self resume_text) as [content self'].
  cbn [fst snd] in *. subst content.
  destruct (ATS._formatting_score resume_text resume_structure) as [f|e];
    cbn [fst snd].
  - split; [done|].
    destruct (Hagain (ATS.set_debug "final_score"
                (ATS.DInt (py_round ((c + f) * 100))) self')) as [Hc' Hs']; [done..|].
    destruct (ATS._content_score _ resume_text) as [content2 self2].
    cbn [fst snd] in *. by subst.
  - split; [done|].
    destruct (Hagain (ATS.set_debug "error"
                (ATS.DStr ("ATS computation error: " +:+ e)) self')) as [Hc' Hs']; [done..|].
    destruct (ATS._content_score _ resume_text) as [content2 self2].
    cbn [fst snd] in *. by subst.
Qed.

End Idempotence.

(** ** The Skill Extractor *)

Lemma rstrip_blank (s : string) :
  Str.forallb Chr.isspace (Str.rstrip s) = true → Str.forallb Chr.isspace s = true.
Proof.
  induction s as [|c s IH]; [done|]. cbn [Str.rstrip].
  destruct (Str.rstrip s) as [|d r].
  - destruct (Chr.isspace c) eqn:Ec; cbn; rewrite ?Ec; [auto|done].
  - change (Str.forallb Chr.isspace (String c (String d r)))
      with (Chr.isspace c && Str.forallb Chr.isspace (String d r)).
    intros [Hc Hr]%andb_prop. cbn. by rewrite Hc, IH.
Qed.

Lemma lstrip_blank (s : string) :
  Str.lstrip s = "" → Str.forallb Chr.isspace s = true.
Proof.
  induction s as [|c s IH]; [done|]. cbn.
  destruct (Chr.isspace c); [auto|done].
Qed.

Lemma strip_blank (s : string) :
  Str.strip s = "" → Str.forallb Chr.isspace s = true.
Proof. intros H. by apply rstrip_blank, lstrip_blank. Qed.

Lemma forallb_impl (p q : ascii → bool) (s : string) :
  (∀ c, p c = true → q c = true) →
  Str.forallb p s = true → Str.forallb q s = true.
Proof.
  intros Hpq. induction s as [|c s IH]; [done|]. cbn.
  intros [Hc Hs]%andb_prop. by rewrite (Hpq c Hc), IH.
Qed.

Lemma isspace_not_word (c : ascii) :
  Chr.isspace c = true → negb (Chr.isword c) = true.
Proof. destruct c as [[] [] [] [] [] [] [] []]; vm_compute; congruence. Qed.

(** A pattern that opens with [\b] finds nothing in a text without word
    characters. *)
Lemma search_word_boundary_none (r : Re.regex) (prev : option ascii) (s : string) :
  Re.is_word prev = false →
  Str.forallb (fun c => negb (Chr.isword c)) s = true →
  Re.search_from (Re.Seq Re.WordB r) prev s = None.
Proof.
  revert prev. induction s as [|c s IH]; intros prev Hprev Hs.
  - cbn. by rewrite Hprev.
  - cbn in Hs. apply andb_prop in Hs as [Hc Hs].
    cbn [Re.search_from]. unfold Re.match_here. cbn [Re.rmatch Str.head Re.is_word].
    rewrite Hprev. apply negb_true_iff in Hc. rewrite Hc. cbn [xorb].
    apply IH; [|done]. cbn. done.
Qed.

Lemma finditer_word_boundary_blank (r : Re.regex) (s : string) :
  Str.strip s = "" → Re.finditer (Re.Seq Re.WordB r) s = [].
Proof.
  intros H. unfold Re.finditer. cbn [Re.finditer_from].
  rewrite search_word_boundary_none; [done..|].
  apply strip_blank in H. revert H. apply forallb_impl, isspace_not_word.
Qed.

Lemma pattern_tokens_blank (text : string) :
  Str.strip text = "" → Suggest.pattern_tokens text = [].
Proof.
  intros H. unfold Suggest.pattern_tokens, Suggest.skill_patterns.
  cbn [List.map Re.seqs].
  by rewrite !finditer_word_boundary_blank.
Qed.

Section Extractor.

Context `{B : Backend}.

(** C5, as amended: [extract_skills] of [suggest_skills.py] adds every
    cleaned token of the pattern layer to the set it returns, for every
    text and whether or not the SkillNER path is available or fails. *)
Theorem extract_skills_runs_pattern_layer (skill_extractor : bool) (text : string) :
  ∀ token, In token (Suggest.pattern_tokens text) →
           token ∈ fst (Suggest.extract_skills skill_extractor text).
Proof.
  intros token Hin. unfold Suggest.extract_skills.
  destruct (Str.is_empty text) eqn:E1.
  { apply is_empty_true in E1. subst text.
    by rewrite pattern_tokens_blank in Hin. }
  destruct (Str.is_empty (Str.strip text)) eqn:E2.
  { apply is_empty_true in E2. by rewrite pattern_tokens_blank in Hin. }
  destruct (if skill_extractor then Suggest.skillner_skills text else (∅, false))
    as [skills alive].
  cbn [fst]. apply elem_of_union_r, elem_of_list_to_set.
  by apply list_elem_of_In.
Qed.

End Extractor.

(** ** The Skill Gap Analyzer *)

Lemma string_leb_trans (a b c : string) :
  String.leb a b = true → String.leb b c = true → String.leb a c = true.
Proof.
  revert b c. induction a as [|x a IH]; intros [|y b] [|z c]; try done.
  unfold String.leb. cbn [String.compare].
  destruct (Ascii.compare x y) eqn:Exy; destruct (Ascii.compare y z) eqn:Eyz;
    try done.
  - apply Ascii.compare_eq_iff in Exy, Eyz. subst.
    assert (Ascii.compare z z = Eq) as ->.
    { unfold Ascii.compare. apply N.compare_refl. }
    apply IH.
  - apply Ascii.compare_eq_iff in Exy. subst. by rewrite Eyz.
  - apply Ascii.compare_eq_iff in Eyz. subst. by rewrite Exy.
  - unfold Ascii.compare in *. rewrite N.compare_lt_iff in Exy, Eyz.
    assert (N.compare (N_of_ascii x) (N_of_ascii z) = Lt) as ->; [|done].
    apply N.compare_lt_iff. by etransitivity.
Qed.

Global Instance key_le_total : Total Suggest.key_le.
Proof.
  intros x y. unfold Suggest.key_le.
  destruct (lt_eq_lt_dec (Suggest.importance x) (Suggest.importance y))
    as [[H|H]|H]; [by right; left| |by left; left].
  destruct (String.leb_total (Str.lower (Suggest.skill x)) (Str.lower (Suggest.skill y)));
    [left|right]; right; done.
Qed.

Global Instance key_le_trans : Transitive Suggest.key_le.
Proof.
  intros x y z. unfold Suggest.key_le.
  intros [H1|[H1 L1]] [H2|[H2 L2]]; [left; lia..|].
  right. split; [lia|]. by eapply string_leb_trans.
Qed.

Lemma firstn_subset {A : Type} (n : nat) (l : list A) (x : A) :
  In x (List.firstn n l) → In x l.
Proof.
  revert n. induction l as [|y l IH]; intros [|n]; cbn; try done.
  intros [H|H]; [by left|right; eauto].
Qed.

Lemma StronglySorted_firstn {A : Type} (R : relation A) (n : nat) (l : list A) :
  StronglySorted R l → StronglySorted R (List.firstn n l).
Proof.
  intros H. revert n. induction H as [|x l Hl IH Hx]; intros [|n]; cbn;
    try constructor; [apply IH|].
  apply Forall_forall. intros y Hy. rewrite Forall_forall in Hx. apply Hx.
  apply list_elem_of_In. apply list_elem_of_In in Hy. eapply firstn_subset, Hy.
Qed.

Lemma StronglySorted_map_in {A C : Type} (R1 : relation A) (R2 : relation C)
    (f : A → C) (l : list A) :
  (∀ x y, In x l → In y l → R1 x y → R2 (f x) (f y)) →
  StronglySorted R1 l → StronglySorted R2 (List.map f l).
Proof.
  intros Hf H. induction H as [|x l Hl IH Hx]; cbn; constructor.
  - apply IH. intros a b Ha Hb. apply Hf; by right.
  - apply Forall_forall. intros c Hc. rewrite Forall_forall in Hx.
    apply list_elem_of_In, in_map_iff in Hc as (y & <- & Hy).
    apply Hf; [by left|by right|]. by apply Hx, list_elem_of_In.
Qed.

(** *** Extracted skills are lowercase *)

Lemma lower_fixed_string (s : string) :
  Str.forallb Chr.lower_fixed s = true → Str.lower s = s.
Proof.
  induction s as [|c s IH]; [done|]. cbn. intros [Hc Hs]%andb_prop.
  unfold Str.lower in IH. rewrite IH by done.
  apply Ascii.eqb_eq in Hc. by rewrite Hc.
Qed.

Lemma lower_is_lower_fixed (s : string) :
  Str.forallb Chr.lower_fixed (Str.lower s) = true.
Proof.
  apply forallb_map. intros c. unfold Chr.lower_fixed.
  rewrite lower_lower. apply Ascii.eqb_refl.
Qed.

Lemma lower_idem (s : string) : Str.lower (Str.lower s) = Str.lower s.
Proof. apply lower_fixed_string, lower_is_lower_fixed. Qed.

Lemma clean_phrase_lower (x : string) :
  Str.lower (Suggest.clean_phrase x) = Suggest.clean_phrase x.
Proof.
  apply lower_fixed_string. unfold Suggest.clean_phrase, Re.sub_cls.
  apply forallb_strip.
  pose proof (lower_is_lower_fixed x) as H.
  induction (Str.lower x) as [|c s IH]; [done|].
  cbn in *. apply andb_prop in H as [Hc Hs]. rewrite IH by done.
  destruct (negb _); [done|]. by rewrite Hc.
Qed.

Lemma common_skills_lower (s : string) :
  In s Suggest.COMMON_SKILLS_list → Str.lower s = s.
Proof.
  assert (List.forallb (fun s => String.eqb (Str.lower s) s)
                       Suggest.COMMON_SKILLS_list = true) as H
    by (vm_compute; reflexivity).
  rewrite forallb_forall in H. intros Hin. by apply String.eqb_eq, H.
Qed.

Lemma cleaned_matches_lower (ms : list SkillMatch) (s : string) :
  s ∈ Suggest.cleaned_matches ms → Str.lower s = s.
Proof.
  unfold Suggest.cleaned_matches. rewrite elem_of_list_to_set, list_elem_of_In.
  intros [Hin _]%filter_In. apply in_map_iff in Hin as (m & <- & _).
  apply clean_phrase_lower.
Qed.

Lemma pattern_tokens_lower (text s : string) :
  In s (Suggest.pattern_tokens text) → Str.lower s = s.
Proof.
  unfold Suggest.pattern_tokens.
  intros (l1 & Hl1 & Hs)%in_concat.
  apply in_map_iff in Hl1 as (pattern & <- & _).
  apply in_concat in Hs as (l2 & Hl2 & Hs).
  apply in_map_iff in Hl2 as (m & <- & _).
  unfold Suggest.phrase_tokens in Hs.
  apply in_map_iff in Hs as (x & <- & _). apply clean_phrase_lower.
Qed.

Section GapAnalyzer.

Context `{B : Backend}.

Lemma skillner_skills_lower (text s : string) :
  s ∈ fst (Suggest.skillner_skills text) → Str.lower s = s.
Proof.
  unfold Suggest.skillner_skills. destruct (skill_annotate text); cbn [fst].
  - rewrite elem_of_union. intros [H|H]; eapply cleaned_matches_lower, H.
  - by intros ?%not_elem_of_empty.
Qed.

Lemma ner_skills_lower (text s : string) :
  s ∈ Suggest.ner_skills text → Str.lower s = s.
Proof.
  unfold Suggest.ner_skills. destruct (nlp text).
  - rewrite elem_of_list_to_set, list_elem_of_In.
    intros (ent & <- & _)%in_map_iff. apply lower_idem.
  - by intros ?%not_elem_of_empty.
Qed.

Lemma vocabulary_skills_lower (text s : string) :
  s ∈ Suggest.vocabulary_skills text → Str.lower s = s.
Proof.
  unfold Suggest.vocabulary_skills. rewrite elem_of_list_to_set, list_elem_of_In.
  intros [Hin _]%filter_In. by apply common_skills_lower.
Qed.

(** Every skill that [extract_skills] returns is in lower case. *)
Lemma extract_skills_lower (skill_extractor : bool) (text s : string) :
  s ∈ fst (Suggest.extract_skills skill_extractor text) → Str.lower s = s.
Proof.
  unfold Suggest.extract_skills.
  destruct (Str.is_empty text); [by intros ?%not_elem_of_empty|].
  destruct (Str.is_empty (Str.strip text)); [by intros ?%not_elem_of_empty|].
  pose proof (skillner_skills_lower text s) as Hner.
  destruct skill_extractor.
  - destruct (Suggest.skillner_skills text) as [skills alive]. cbn [fst] in *.
    destruct alive; rewrite !elem_of_union, ?elem_of_list_to_set, ?list_elem_of_In;
      intuition eauto using ner_skills_lower, vocabulary_skills_lower, pattern_tokens_lower.
  - cbn [fst]. rewrite !elem_of_union, ?elem_of_list_to_set, ?list_elem_of_In.
    intros [[[H|H]|H]|H];
      eauto using ner_skills_lower, vocabulary_skills_lower, pattern_tokens_lower.
    by apply not_elem_of_empty in H.
Qed.

(** C4, as amended: the list [get_missing_skills] returns holds only
    members of the curated vocabulary longer than 2 characters, has at most
    20 entries, is empty when either text is empty, and is ordered by the
    number of occurrences of the skill in the lowercased job description,
    larger first, ties in ascending alphabetical order. *)
Theorem get_missing_skills_contract (skill_extractor : bool)
    (jd_text resume_text : string) :
  let missing := fst (Suggest.get_missing_skills skill_extractor jd_text resume_text) in
  (∀ s, In s missing → s ∈ Suggest.COMMON_SKILLS ∧ (2 < String.length s)%nat)
  ∧ (List.length missing <= 20)%nat
  ∧ (jd_text = "" ∨ resume_text = "" → missing = [])
  ∧ StronglySorted (Suggest.ranked_before jd_text) missing.
Proof.
  cbv zeta. unfold Suggest.get_missing_skills.
  destruct (Str.is_empty jd_text || Str.is_empty resume_text) eqn:Hempty.
  { cbn. repeat split; try done; [lia|constructor]. }
  pose proof (extract_skills_lower skill_extractor jd_text) as Hlow.
  destruct (Suggest.extract_skills skill_extractor jd_text) as [jd_skills flag1].
  destruct (Suggest.extract_skills flag1 resume_text) as [resume_skills flag2].
  cbn [fst] in *.
  set (keep := fun skill : string =>
                 bool_decide (Str.lower skill ∈ Suggest.COMMON_SKILLS)
                 && (2 <? String.length skill)%nat).
  set (filtered := List.filter keep (elements (jd_skills ∖ resume_skills))).
  set (detail := fun skill : string =>
                   Suggest.mkDetail skill (Str.count (Str.lower jd_text) (Str.lower skill))).
  set (sorted := merge_sort Suggest.key_le (List.map detail filtered)).
  assert (∀ d, In d sorted → ∃ s, d = detail s ∧ In s filtered) as Hsorted.
  { intros d Hd. apply list_elem_of_In in Hd. unfold sorted in Hd.
    rewrite merge_sort_Permutation in Hd.
    apply list_elem_of_In, in_map_iff in Hd as (s & <- & Hs). eauto. }
  repeat split.
  - apply in_map_iff in H as (d & <- & Hd).
    apply firstn_subset, Hsorted in Hd as (s' & -> & Hs'). cbn.
    apply filter_In in Hs' as [Hin Hkeep].
    apply andb_prop in Hkeep as [Hc _]. apply bool_decide_eq_true in Hc.
    rewrite Hlow in Hc; [done|].
    apply list_elem_of_In, elem_of_elements in Hin. set_solver.
  - apply in_map_iff in H as (d & <- & Hd).
    apply firstn_subset, Hsorted in Hd as (s' & -> & Hs'). cbn.
    apply filter_In in Hs' as [_ Hkeep].
    apply andb_prop in Hkeep as [_ Hlen]. by apply Nat.ltb_lt in Hlen.
  - rewrite length_map, length_firstn. lia.
  - intros [->| ->]; cbn in Hempty; [done|]. by rewrite orb_true_r in Hempty.
  - apply StronglySorted_map_in with (R1 := Suggest.key_le).
    + intros x y Hx Hy.
      apply firstn_subset, Hsorted in Hx as (a & -> & _).
      apply firstn_subset, Hsorted in Hy as (b & -> & _). done.
    + apply StronglySorted_firstn, StronglySorted_merge_sort; apply _.
Qed.

End GapAnalyzer.

(** ** Extending the resume text *)

Local Arguments String.append : simpl nomatch.

Lemma lower_app (a b : string) : Str.lower (a +:+ b) = Str.lower a +:+ Str.lower b.
Proof. unfold Str.lower. induction a as [|c a IH]; cbn; [done|]. by rewrite IH. Qed.










Section Monotone.

Context `{B : Backend}.

(** With the SkillNER path unavailable, extraction is the keyword scan and
    leaves the instance as it is. *)
Lemma extract_skills_fallback (self : ATS.ATSCalculator) (x : string) :
  ATS.skill_extractor self = false →
  ATS._extract_skills self x
  = (if Str.is_empty x || Str.is_empty (Str.strip x) then ∅
     else ∅ ∪ ATS.keyword_skills x, self).
Proof.
  intros H. unfold ATS._extract_skills.
  destruct (Str.is_empty x || Str.is_empty (Str.strip x)); [done|].
  rewrite H. cbn. by rewrite H.
Qed.




End Monotone.


Section MonotoneScore.

Context `{B : Backend}.

Lemma content_score_fallback (self : ATS.ATSCalculator) (t : string) :
  ATS.skill_extractor self = false →
  ∃ c, ATS._content_score self t = (Ret (clamp 0 (Qmake 60 100) c), self)
       ∧ (c == ATS.SKILL_COVERAGE_WEIGHT * resume_coverage self t
               + other_content self t)%Q.
Proof.
  intros H. unfold ATS._content_score, resume_coverage, other_content.
  rewrite extract_skills_fallback by done.
  eexists. split; [reflexivity|]. ring.
Qed.


End MonotoneScore.

(** ** The Similarity Scorer inside the content score *)

Section Similarity.

Context `{B : Backend}.

(** C6: when the TF-IDF vectorization or the cosine computation raises,
    the similarity component is 0, [_content_score] still returns a value
    (the clamped sum of the other components), and [total_score] goes on
    to combine it with the formatting score. *)
Theorem tfidf_failure_is_soft (self : ATS.ATSCalculator) (resume_text e : string) :
  tfidf_cosine (ATS.jd_text self) (_normalize resume_text) = Raise e →
  let resume_norm := _normalize resume_text in
  let '(resume_skills, self') := ATS._extract_skills self resume_norm in
  let content :=
    clamp 0 (Qmake 60 100)
      (ATS.SKILL_COVERAGE_WEIGHT * ATS.skill_coverage self' resume_skills + 0
       + ATS.keyword_component resume_norm
       + ATS._experience_bonus self' resume_norm) in
  ATS.tfidf_component self' resume_norm = 0%Q
  ∧ fst (ATS._content_score self resume_text) = Ret content
  ∧ ∀ resume_structure f,
      fst (ATS._validate_text resume_text "Resume") = true →
      resume_structure ≠ [] →
      fst (ATS._check_disqualifiers resume_structure) = true →
      ATS._formatting_score resume_text resume_structure = Ret f →
      fst (ATS.total_score self resume_text resume_structure)
      = py_round ((content + f) * 100).
Proof.
  intros Hraise. cbv zeta.
  pose proof (extract_skills_keeps_profile self (_normalize resume_text)) as Hp.
  unfold ATS.total_score, ATS._content_score.
  destruct (ATS._extract_skills self (_normalize resume_text)) as [rs self'].
  cbn [snd] in Hp. injection Hp as Ht _ _.
  assert (ATS.tfidf_component self' (_normalize resume_text) = 0%Q) as H0.
  { unfold ATS.tfidf_component. by rewrite Ht, Hraise. }
  rewrite H0. repeat split.
  intros resume_structure f Hv Hne Hg Hf.
  destruct (ATS._validate_text resume_text "Resume") as [ok msg].
  cbn in Hv. subst ok. cbn [negb].
  destruct resume_structure as [|it its]; [done|]. cbn [ATS.is_nil].
  destruct (ATS._check_disqualifiers (it :: its)) as [disq_ok reason].
  cbn in Hg. subst disq_ok. cbn [negb]. by rewrite Hf.
Qed.

End Similarity.

(** ** The Structural Advisor *)

(** A text of whitespace only passes the entry guard of
    [analyze_resume_structure] and makes [check_contact_info] raise. *)
Lemma analyze_blank_raises (resume_text : string) (resume_structure : list Element) :
  resume_text ≠ "" → Str.strip resume_text = "" →
  Advice.analyze_resume_structure resume_text resume_structure
  = Raise Advice.value_error.
Proof.
  intros Hne Hblank. unfold Advice.analyze_resume_structure.
  apply is_empty_false in Hne. rewrite Hne.
  unfold Advice.check_contact_info. by rewrite Hblank.
Qed.

Lemma ret_match {A : Type} (l d : list A) :
  match l with [] => Ret d | _ :: _ => Ret l end
  = Ret (match l with [] => d | x :: l' => x :: l' end).
Proof. by destruct l. Qed.

(** On every other text the advisor returns a non-empty list: the issues
    of the four rule groups in order, or the single positive entry. *)
Lemma analyze_nonblank_returns (resume_text : string) (resume_structure : list Element) :
  Str.strip resume_text ≠ "" →
  ∃ contact sections formatting quality,
    Advice.check_contact_info resume_text = Ret contact
    ∧ Advice.check_sections resume_text resume_structure = Ret sections
    ∧ Advice.check_formatting resume_structure = Ret formatting
    ∧ Advice.check_content_quality resume_text resume_structure = Ret quality
    ∧ Advice.analyze_resume_structure resume_text resume_structure
      = Ret (match snd contact ++ sections ++ formatting ++ quality with
             | [] => [Advice.no_major_issues]
             | all_issues => all_issues
             end).
Proof.
  intros Hne. unfold Advice.analyze_resume_structure.
  assert (Str.is_empty resume_text = false) as ->.
  { destruct resume_text; [done|done]. }
  unfold Advice.check_contact_info, Advice.check_sections,
    Advice.check_content_quality, Advice.check_formatting.
  apply is_empty_false in Hne. rewrite Hne.
  destruct (List.filter _ resume_structure) as [|h hs]; cbn [List.map];
    [|destruct (negb (Advice.heading_is_name _))];
    do 4 eexists; repeat (split; [reflexivity|]); cbn [snd];
    apply ret_match.
Qed.

(** C7, at the failing input: on the one-space text and the empty
    structure the advisor raises [ValueError] instead of returning a list. *)
Theorem analyze_space_raises :
  Advice.analyze_resume_structure " " []
  = Raise "resume_text must be a non-empty string".
Proof. reflexivity. Qed.

(** ** The claims on concrete inputs *)

Section Concrete.

Local Existing Instance Demo.simple_backend.

(** C1 on a structure that holds a table. *)
Lemma total_score_disqualified_witness :
  fst (ATS._check_disqualifiers [Demo.el table "a | b" 11]) = false
  ∧ ∃ key reason,
      ATS.total_score Demo.calc Demo.resume [Demo.el table "a | b" 11]
      = (0%Z, ATS.set_debug key (ATS.DStr reason) Demo.calc)
      ∧ key ≠ "final_score".
Proof.
  split; [reflexivity|].
  apply (total_score_disqualified Demo.calc Demo.resume [Demo.el table "a | b" 11]).
  reflexivity.
Defined.

(** C2 on a text of nine characters. *)
Lemma total_score_range_witness :
  Claimed.fails_validation "too short"
  ∧ fst (ATS.total_score Demo.calc "too short" Demo.structure) = 0%Z.
Proof.
  assert (Claimed.fails_validation "too short") as H.
  { right. left. vm_compute. lia. }
  split; [exact H|].
  exact (proj2 (total_score_range Demo.calc "too short" Demo.structure) H).
Defined.

(** C3 as stated fails: the gate passes a structure whose only heading,
    "John doe", has a token that does not start with an uppercase letter. *)
Lemma gate_passes_lowercase_token :
  fst (ATS._check_disqualifiers Demo.lowercase_name_structure) = true
  ∧ List.existsb Claimed.heading_is_name Demo.lowercase_name_structure = false.
Proof. split; vm_compute; reflexivity. Qed.

(** C4 as stated fails: for a job description that writes "SQL" in upper
    case the list is ["sql"; "rust"], although "sql" occurs literally 0
    times and "rust" once. *)
Lemma missing_skills_not_by_literal_count :
  fst (Suggest.get_missing_skills false Demo.uppercase_jd "I like gardening")
  = ["sql"; "rust"]
  ∧ Str.count Demo.uppercase_jd "sql" = 0%nat
  ∧ Str.count Demo.uppercase_jd "rust" = 1%nat
  ∧ ¬ Claimed.ranked_before Demo.uppercase_jd "sql" "rust".
Proof.
  repeat split; try (vm_compute; reflexivity).
  unfold Claimed.ranked_before.
  assert (Str.count Demo.uppercase_jd "sql" = 0%nat) as -> by (vm_compute; reflexivity).
  assert (Str.count Demo.uppercase_jd "rust" = 1%nat) as -> by (vm_compute; reflexivity).
  intros [H|[H _]]; lia.
Qed.

(** C5 as stated fails: the extractor of the Score Aggregator returns no
    skill for "skills: cobol", a text whose pattern-layer token is "cobol". *)
Lemma aggregator_extractor_has_no_pattern_layer :
  In "cobol" (Suggest.pattern_tokens "skills: cobol")
  ∧ ("cobol" ∉ fst (ATS._extract_skills Demo.calc "skills: cobol"))
  ∧ ("cobol" ∉ fst (ATS._extract_skills
                       (ATS.set_skill_extractor true Demo.calc) "skills: cobol")).
Proof.
  assert (fst (ATS._extract_skills Demo.calc "skills: cobol") = ∅) as ->
    by (vm_compute; reflexivity).
  assert (fst (ATS._extract_skills (ATS.set_skill_extractor true Demo.calc)
                 "skills: cobol") = ∅) as ->
    by (vm_compute; reflexivity).
  repeat split; [vm_compute; by left|set_solver..].
Qed.

(** C5, amended, on the same text. *)
Lemma extract_skills_runs_pattern_layer_witness :
  In "cobol" (Suggest.pattern_tokens "skills: cobol")
  ∧ ("cobol" ∈ fst (Suggest.extract_skills false "skills: cobol")).
Proof.
  assert (In "cobol" (Suggest.pattern_tokens "skills: cobol")) as H
    by (vm_compute; by left).
  split; [exact H|].
  exact (extract_skills_runs_pattern_layer false "skills: cobol" "cobol" H).
Defined.





End Concrete.

(** C6 on a backend whose vectorizer raises. *)
Lemma tfidf_failure_is_soft_witness :
  @tfidf_cosine Demo.failing_tfidf_backend (ATS.jd_text Demo.calc)
                (_normalize Demo.resume) = Raise "empty vocabulary"
  ∧ ∃ c, fst (@ATS._content_score Demo.failing_tfidf_backend Demo.calc Demo.resume)
         = Ret c.
Proof.
  split; [reflexivity|].
  pose proof (@tfidf_failure_is_soft Demo.failing_tfidf_backend Demo.calc
                Demo.resume "empty vocabulary" eq_refl) as H.
  cbv zeta in H.
  destruct (@ATS._extract_skills Demo.failing_tfidf_backend Demo.calc
              (_normalize Demo.resume)) as [rs self'].
  destruct H as (_ & H & _). eexists. exact H.
Defined.

(** * Further properties of the code *)

(** ** Text normalization *)

Lemma lstrip_idem (s : string) : Str.lstrip (Str.lstrip s) = Str.lstrip s.
Proof.
  induction s as [|c s IH]; [done|]. cbn.
  destruct (Chr.isspace c) eqn:E; [done|]. cbn. by rewrite E.
Qed.

Lemma rstrip_cons (c : ascii) (s : string) :
  Str.rstrip (String c s)
  = if Str.is_empty (Str.rstrip s)
    then (if Chr.isspace c then EmptyString else String c EmptyString)
    else String c (Str.rstrip s).
Proof. cbn. by destruct (Str.rstrip s). Qed.

Lemma rstrip_idem (s : string) : Str.rstrip (Str.rstrip s) = Str.rstrip s.
Proof.
  induction s as [|c s IH]; [done|]. rewrite rstrip_cons.
  destruct (Str.is_empty (Str.rstrip s)) eqn:E.
  - destruct (Chr.isspace c) eqn:Ec; [done|]. cbn. by rewrite Ec.
  - by rewrite rstrip_cons, IH, E.
Qed.

Lemma rstrip_lstrip (s : string) :
  Str.rstrip (Str.lstrip s) = Str.lstrip (Str.rstrip s).
Proof.
  induction s as [|c s IH]; [done|].
  rewrite rstrip_cons. cbn [Str.lstrip]. destruct (Chr.isspace c) eqn:Ec.
  - rewrite IH. destruct (Str.is_empty (Str.rstrip s)) eqn:E.
    + apply is_empty_true in E. by rewrite E.
    + cbn [Str.lstrip]. by rewrite Ec.
  - rewrite rstrip_cons. destruct (Str.is_empty (Str.rstrip s));
      cbn [Str.lstrip]; by rewrite Ec.
Qed.

Lemma strip_idem (s : string) : Str.strip (Str.strip s) = Str.strip s.
Proof.
  unfold Str.strip. by rewrite rstrip_lstrip, rstrip_idem, lstrip_idem.
Qed.

Lemma single_spaced_collapse (w : bool) (s : string) :
  Shape.single_spaced w (Re.collapse_ws w s) = true.
Proof.
  revert w. induction s as [|c s IH]; intros w; [done|]. cbn.
  destruct (Chr.isspace c) eqn:Ec.
  - destruct w; [apply IH|]. cbn. by rewrite IH.
  - cbn. rewrite Ec. apply IH.
Qed.

Lemma single_spaced_lstrip (w w' : bool) (s : string) :
  Shape.single_spaced w s = true → Shape.single_spaced w' (Str.lstrip s) = true.
Proof.
  revert w. induction s as [|c s IH]; intros w; [done|]. cbn.
  destruct (Chr.isspace c) eqn:Ec.
  - intros [_ H]%andb_prop. by eapply IH.
  - cbn. by rewrite Ec.
Qed.

Lemma single_spaced_rstrip (w : bool) (s : string) :
  Shape.single_spaced w s = true → Shape.single_spaced w (Str.rstrip s) = true.
Proof.
  revert w. induction s as [|c s IH]; intros w; [done|].
  rewrite rstrip_cons. cbn [Shape.single_spaced].
  destruct (Chr.isspace c) eqn:Ec.
  - intros [H1 H2]%andb_prop. specialize (IH true H2).
    destruct (Str.is_empty (Str.rstrip s)); [done|].
    cbn [Shape.single_spaced]. by rewrite Ec, H1, IH.
  - intros H. specialize (IH false H).
    destruct (Str.is_empty (Str.rstrip s)); cbn [Shape.single_spaced];
      by rewrite Ec.
Qed.

Lemma single_spaced_weaken (s : string) :
  Shape.single_spaced true s = true → Shape.single_spaced false s = true.
Proof.
  destruct s as [|c s]; [done|]. cbn. destruct (Chr.isspace c); [|done].
  by rewrite andb_false_r.
Qed.

Lemma collapse_single_spaced (w : bool) (s : string) :
  Shape.single_spaced w s = true → Re.collapse_ws w s = s.
Proof.
  revert w. induction s as [|c s IH]; intros w; [done|]. cbn.
  destruct (Chr.isspace c) eqn:Ec.
  - intros [[Hc Hw]%andb_prop H]%andb_prop.
    apply negb_true_iff in Hw. subst w. apply Ascii.eqb_eq in Hc. subst c.
    by rewrite IH.
  - intros H. by rewrite IH.
Qed.

Lemma forallb_collapse (p : ascii → bool) (w : bool) (s : string) :
  p " "%char = true → Str.forallb p s = true →
  Str.forallb p (Re.collapse_ws w s) = true.
Proof.
  intros Hsp. revert w. induction s as [|c s IH]; intros w; [done|]. cbn.
  intros [Hc Hs]%andb_prop.
  destruct (Chr.isspace c); [destruct w|]; cbn; rewrite ?Hsp, ?Hc; cbn; auto.
Qed.

Lemma normalize_single_spaced (t : string) :
  Shape.single_spaced true (_normalize t) = true.
Proof.
  unfold _normalize. destruct (Str.is_empty t); [done|]. unfold Str.strip.
  eapply single_spaced_lstrip, single_spaced_rstrip, single_spaced_collapse.
Qed.

Lemma normalize_lower (t : string) : Str.lower (_normalize t) = _normalize t.
Proof.
  apply lower_fixed_string. unfold _normalize.
  destruct (Str.is_empty t); [done|].
  apply forallb_strip, forallb_collapse; [done|apply lower_is_lower_fixed].
Qed.

Lemma normalize_stripped (t : string) : Str.strip (_normalize t) = _normalize t.
Proof.
  unfold _normalize. destruct (Str.is_empty t); [done|]. apply strip_idem.
Qed.

(** X1: normalizing a normalized text changes nothing. *)
Theorem normalize_idempotent (t : string) :
  _normalize (_normalize t) = _normalize t.
Proof.
  pose proof (normalize_single_spaced t) as Hs.
  pose proof (normalize_lower t) as Hl.
  pose proof (normalize_stripped t) as Hst.
  destruct (_normalize t) as [|c n] eqn:E; [done|].
  unfold _normalize at 1. cbn [Str.is_empty]. rewrite Hl.
  rewrite collapse_single_spaced by by apply single_spaced_weaken.
  done.
Qed.

(** X2: a normalized text has no uppercase letter, no leading or trailing
    whitespace, and no whitespace other than single spaces between words. *)
Theorem normalize_shape (t : string) :
  Str.forallb (fun c => negb (Chr.isupper c)) (_normalize t) = true
  ∧ Str.strip (_normalize t) = _normalize t
  ∧ Shape.single_spaced true (_normalize t) = true.
Proof.
  split; [|split; [apply normalize_stripped|apply normalize_single_spaced]].
  rewrite <- normalize_lower. apply lower_no_upper.
Qed.

(** ** Phrase cleaning *)

Lemma sub_cls_word_or_space (s : string) :
  Str.forallb Shape.word_or_space
    (Re.sub_cls (fun c => negb (Chr.isword c || Chr.isspace c)) s) = true.
Proof.
  unfold Re.sub_cls. induction s as [|c s IH]; [done|]. cbn.
  rewrite IH, andb_true_r.
  unfold Shape.word_or_space. by destruct (Chr.isword c || Chr.isspace c) eqn:E.
Qed.

Lemma sub_cls_fixed (s : string) :
  Str.forallb Shape.word_or_space s = true →
  Re.sub_cls (fun c => negb (Chr.isword c || Chr.isspace c)) s = s.
Proof.
  unfold Re.sub_cls. induction s as [|c s IH]; [done|]. cbn.
  intros [Hc Hs]%andb_prop. rewrite IH by done.
  unfold Shape.word_or_space in Hc. by rewrite Hc.
Qed.

Lemma clean_phrase_word_or_space (x : string) :
  Str.forallb Shape.word_or_space (Suggest.clean_phrase x) = true.
Proof. apply forallb_strip, sub_cls_word_or_space. Qed.

(** X3: [clean_phrase] is idempotent, and what it returns is in lower
    case, without leading or trailing whitespace, and made of word
    characters and whitespace only. *)
Theorem clean_phrase_idempotent (x : string) :
  Suggest.clean_phrase (Suggest.clean_phrase x) = Suggest.clean_phrase x
  ∧ Str.lower (Suggest.clean_phrase x) = Suggest.clean_phrase x
  ∧ Str.strip (Suggest.clean_phrase x) = Suggest.clean_phrase x
  ∧ Str.forallb Shape.word_or_space (Suggest.clean_phrase x) = true.
Proof.
  assert (Str.strip (Suggest.clean_phrase x) = Suggest.clean_phrase x) as Hs
    by apply strip_idem.
  repeat split; [|apply clean_phrase_lower|done|apply clean_phrase_word_or_space].
  unfold Suggest.clean_phrase at 1.
  by rewrite clean_phrase_lower, sub_cls_fixed by apply clean_phrase_word_or_space.
Qed.

(** ** Constructing the calculator *)

Lemma validate_text_accepts (text name : string) :
  fst (ATS._validate_text text name) = true ↔ ¬ Claimed.fails_validation text.
Proof.
  split.
  - intros Hok Hfail. apply (validate_text_fails _ name) in Hfail. congruence.
  - unfold Claimed.fails_validation, ATS._validate_text. intros H.
    destruct (Str.is_empty (Str.strip text)) eqn:E1.
    { exfalso. apply H. left. by apply is_empty_true. }
    destruct (String.length (Str.strip text) <? ATS.MIN_TEXT_LENGTH)%nat eqn:E2.
    { exfalso. apply H. right. left. by apply Nat.ltb_lt. }
    destruct (Qltb (ATS.text_ratio text) (Qmake 1 2)) eqn:E3; [|done].
    exfalso. apply H. right. right. by apply Qltb_lt.
Qed.

Lemma validate_text_rejects (text name : string) :
  fst (ATS._validate_text text name) = false → Claimed.fails_validation text.
Proof.
  unfold Claimed.fails_validation, ATS._validate_text.
  destruct (Str.is_empty (Str.strip text)) eqn:E1.
  { intros _. left. by apply is_empty_true. }
  destruct (String.length (Str.strip text) <? ATS.MIN_TEXT_LENGTH)%nat eqn:E2.
  { intros _. right. left. by apply Nat.ltb_lt. }
  destruct (Qltb (ATS.text_ratio text) (Qmake 1 2)) eqn:E3; [|done].
  intros _. right. right. by apply Qltb_lt.
Qed.

Lemma validate_text_message (text name : string) :
  fst (ATS._validate_text text name) = true → snd (ATS._validate_text text name) = "".
Proof.
  unfold ATS._validate_text.
  destruct (Str.is_empty _); [done|]. destruct (_ <? _)%nat; [done|].
  by destruct (Qltb _ _).
Qed.

Lemma int_of_digits_nonneg (s : string) (acc : Z) :
  (0 <= acc)%Z → (0 <= int_of_digits acc s)%Z.
Proof.
  revert acc. induction s as [|c s IH]; intros acc H; [done|].
  cbn. apply IH. lia.
Qed.

Lemma fold_max_ge (ns : list Z) (n : Z) : (n <= List.fold_left Z.max ns n)%Z.
Proof.
  revert n. induction ns as [|m ns IH]; intros n; cbn; [lia|].
  etransitivity; [|apply IH]. lia.
Qed.

Lemma experience_requirements_nonneg (text : string) :
  (0 <= ATS._extract_experience_requirements text)%Z.
Proof.
  unfold ATS._extract_experience_requirements, ATS.max_or_zero.
  destruct (List.map _ _) as [|n ns] eqn:E; [done|].
  etransitivity; [|apply fold_max_ge].
  assert (In n (n :: ns)) as Hin by by left. rewrite <- E in Hin.
  apply in_map_iff in Hin as (m & <- & _). by apply int_of_digits_nonneg.
Qed.

Section Construction.

Context `{B : Backend}.

(** Extraction changes nothing of an instance but its extractor handle. *)
Lemma extract_skills_state (self : ATS.ATSCalculator) (t : string) :
  ∃ alive, snd (ATS._extract_skills self t) = ATS.set_skill_extractor alive self.
Proof.
  unfold ATS._extract_skills.
  destruct (Str.is_empty t || Str.is_empty (Str.strip t)).
  { exists (ATS.skill_extractor self). by destruct self. }
  destruct (ATS.skill_extractor self) eqn:E.
  - destruct (ATS.skillner_skills t) as [found alive]. by exists alive.
  - exists false. cbn. destruct self. cbn in E. by subst.
Qed.

(** X4: [ATSCalculator(jd_text)] raises exactly when the job description
    fails validation (it is blank, shorter than 50 characters once trimmed,
    or less than half of its characters are alphanumeric or whitespace).
    Otherwise the instance holds the raw and the normalized text, a
    non-negative number of required years and no diagnostics. *)
Theorem init_raises_iff_invalid (jd_text : string) :
  ((∃ msg, ATS.__init__ jd_text = Raise msg) ↔ Claimed.fails_validation jd_text)
  ∧ ∀ self, ATS.__init__ jd_text = Ret self →
      ATS.jd_text_raw self = jd_text
      ∧ ATS.jd_text self = _normalize jd_text
      ∧ ATS.jd_required_years self
        = ATS._extract_experience_requirements (_normalize jd_text)
      ∧ (0 <= ATS.jd_required_years self)%Z
      ∧ ATS.debug_details self = ∅.
Proof.
  unfold ATS.__init__.
  pose proof (validate_text_rejects jd_text "Job description") as Hv.
  pose proof (validate_text_fails jd_text "Job description") as Hf.
  destruct (ATS._validate_text jd_text "Job description") as [ok msg].
  cbn [fst] in *. destruct ok; cbn [negb].
  - match goal with |- context [ATS._extract_skills ?a ?t] =>
      destruct (extract_skills_state a t) as [alive Hst];
      destruct (ATS._extract_skills a t) as [skills self'] end.
    cbn [snd] in Hst. subst self'. cbn. split.
    + split; [by intros [m ?]|]. intros Hfail. apply Hf in Hfail. done.
    + intros self [= <-]. cbn. repeat split.
      apply experience_requirements_nonneg.
  - split; [|done]. split; [auto|by eexists].
Qed.

End Construction.

(** ** Degrading to the fallback extractor *)

Section Degrade.

Context `{B : Backend}.

Lemma suggest_extract_flag (flag : bool) (text : string) :
  snd (Suggest.extract_skills flag text) = true → flag = true.
Proof.
  unfold Suggest.extract_skills.
  destruct (Str.is_empty text); [done|].
  destruct (Str.is_empty (Str.strip text)); [done|].
  destruct flag; [done|]. done.
Qed.

(** X5: a disabled SkillNER extractor is never enabled again: scoring on
    an instance whose [skill_extractor] is [None] leaves it [None], and so
    does the gap analysis for the module-level extractor of
    [suggest_skills]. *)
Theorem extractor_stays_disabled (self : ATS.ATSCalculator)
    (jd_text resume_text : string) (resume_structure : list Element) :
  ATS.skill_extractor self = false →
  ATS.skill_extractor (snd (ATS.total_score self resume_text resume_structure)) = false
  ∧ ATS.skill_extractor (snd (ATS._extract_skills self resume_text)) = false
  ∧ snd (Suggest.extract_skills false resume_text) = false
  ∧ snd (Suggest.get_missing_skills false jd_text resume_text) = false.
Proof.
  intros Hflag. repeat split.
  - unfold ATS.total_score.
    destruct (ATS._validate_text resume_text "Resume") as [[] msg]; cbn [negb]; [|done].
    destruct (ATS.is_nil resume_structure); [done|].
    destruct (ATS._check_disqualifiers resume_structure) as [[] reason];
      cbn [negb]; [|done].
    destruct (content_score_fallback self resume_text Hflag) as (c & -> & _).
    by destruct (ATS._formatting_score resume_text resume_structure).
  - by rewrite extract_skills_fallback.
  - destruct (snd (Suggest.extract_skills false resume_text)) eqn:E; [|done].
    by apply suggest_extract_flag in E.
  - unfold Suggest.get_missing_skills.
    destruct (Str.is_empty jd_text || Str.is_empty resume_text); [done|].
    pose proof (suggest_extract_flag false jd_text) as H1.
    destruct (Suggest.extract_skills false jd_text) as [jd_skills flag1].
    pose proof (suggest_extract_flag flag1 resume_text) as H2.
    destruct (Suggest.extract_skills flag1 resume_text) as [resume_skills flag2].
    cbn [snd] in *. destruct flag2; [|done].
    specialize (H2 eq_refl). subst flag1. by specialize (H1 eq_refl).
Qed.

(** X6: when SkillNER raises on a text that is not blank,
    [ATSCalculator._extract_skills] returns exactly the members of its
    keyword set that occur in the lowercased text, and disables the
    extractor. *)
Theorem extract_skills_failure_is_keyword_scan (self : ATS.ATSCalculator)
    (text e : string) :
  ATS.skill_extractor self = true →
  Str.strip text ≠ "" →
  skill_annotate text = Raise e →
  ATS._extract_skills self text
  = (ATS.keyword_skills text, ATS.set_skill_extractor false self)
  ∧ ∀ skill, skill ∈ ATS.keyword_skills text ↔
             In skill ATS.common_skills
             ∧ Str.contains (Str.lower text) skill = true.
Proof.
  intros Hflag Hne Hraise. split.
  - unfold ATS._extract_skills, ATS.skillner_skills.
    assert (Str.is_empty text = false) as ->.
    { destruct text; [done|done]. }
    apply is_empty_false in Hne. rewrite Hne, Hflag, Hraise. cbn.
    by rewrite (left_id_L ∅ (∪)).
  - intros skill. unfold ATS.keyword_skills.
    by rewrite elem_of_list_to_set, list_elem_of_In, filter_In.
Qed.

(** X7: when SkillNER raises on a text that is not blank,
    [extract_skills] of [suggest_skills] returns what it returns with the
    extractor disabled, and disables it. *)
Theorem suggest_failure_is_fallback (text e : string) :
  Str.strip text ≠ "" →
  skill_annotate text = Raise e →
  Suggest.extract_skills true text
  = (fst (Suggest.extract_skills false text), false).
Proof.
  intros Hne Hraise. unfold Suggest.extract_skills, Suggest.skillner_skills.
  assert (Str.is_empty text = false) as ->.
  { destruct text; [done|done]. }
  apply is_empty_false in Hne. by rewrite Hne, Hraise.
Qed.

End Degrade.

(** ** The formatting score *)

Lemma sections_component_bounds (rs : list Element) :
  (0 <= ATS.sections_component rs <= ATS.SECTIONS_WEIGHT)%Q.
Proof.
  unfold ATS.sections_component.
  set (present := list_to_set _ : gset string).
  assert (size present <= 3)%nat as Hsize.
  { transitivity (size (list_to_set ATS.required_sections : gset string)).
    - apply subseteq_size. intros h. unfold present.
      rewrite !elem_of_list_to_set, !list_elem_of_In.
      intros [_ Hm]%filter_In. unfold ATS.mem in Hm.
      apply existsb_exists in Hm as (x & Hx & Heq).
      apply String.eqb_eq in Heq. by subst.
    - by vm_compute. }
  unfold ATS.SECTIONS_WEIGHT, Qle. cbn. split; lia.
Qed.

Lemma clamp_inside (lo hi x : Q) :
  (lo <= x)%Q → (x <= hi)%Q → (clamp lo hi x == x)%Q.
Proof.
  intros H1 H2. unfold clamp.
  rewrite (Q.min_r hi x) by done. by apply Q.max_r.
Qed.

Section Formatting.

Context `{B : Backend}.

Lemma read_component_bounds (t : string) (rs : list Element) (r : Q) :
  ATS.read_component t rs = Ret r → (0 <= r <= ATS.READABILITY_VERBS_WEIGHT)%Q.
Proof.
  unfold ATS.read_component. destruct (nlp t); [|done].
  destruct (ATS.verb_starts rs); [|done].
  intros [= <-]. by apply clamp_bounds.
Qed.

(** X8: the final clamp of [_formatting_score] never cuts anything off:
    the score is the sum of the section, bullet and readability
    components, which lie in [0, 0.20], [0, 0.10] and [0, 0.10]; and the
    score fails exactly when spaCy fails. *)
Theorem formatting_score_is_sum (resume_text : string) (resume_structure : list Element) :
  (∀ e, ATS.read_component resume_text resume_structure = Raise e →
        ATS._formatting_score resume_text resume_structure = Raise e)
  ∧ ∀ r, ATS.read_component resume_text resume_structure = Ret r →
      ∃ f, ATS._formatting_score resume_text resume_structure = Ret f
           ∧ (f == ATS.sections_component resume_structure
                   + ATS.bullet_component resume_structure + r)%Q
           ∧ (0 <= ATS.sections_component resume_structure <= Qmake 20 100)%Q
           ∧ (0 <= ATS.bullet_component resume_structure <= Qmake 10 100)%Q
           ∧ (0 <= r <= Qmake 10 100)%Q.
Proof.
  split.
  - intros e He. unfold ATS._formatting_score. by rewrite He.
  - intros r Hr. unfold ATS._formatting_score. rewrite Hr.
    pose proof (sections_component_bounds resume_structure) as [Hs0 Hs1].
    pose proof (read_component_bounds _ _ _ Hr) as [Hr0 Hr1].
    assert (0 <= ATS.bullet_component resume_structure <= ATS.BULLETS_WEIGHT)%Q
      as [Hb0 Hb1] by by apply clamp_bounds.
    unfold ATS.SECTIONS_WEIGHT, ATS.BULLETS_WEIGHT, ATS.READABILITY_VERBS_WEIGHT in *.
    eexists. split; [reflexivity|]. repeat split; try done.
    rewrite clamp_inside; [ring|lra|lra].
Qed.

End Formatting.

(** ** The gate and the order of elements *)

Lemma existsb_Permutation {A : Type} (f : A → bool) (l l' : list A) :
  Permutation l l' → List.existsb f l = List.existsb f l'.
Proof.
  induction 1 as [|x l l' _ IH|x y l|l l' l'' _ IH1 _ IH2]; cbn.
  - done.
  - by rewrite IH.
  - by rewrite !orb_assoc, (orb_comm (f y)).
  - by rewrite IH1.
Qed.

(** X9: the verdict of the Disqualifier Gate does not depend on the
    order of the elements: the name heading need not come first. *)
Theorem gate_ignores_order (rs rs' : list Element) :
  Permutation rs rs' →
  ATS._check_disqualifiers rs = ATS._check_disqualifiers rs'.
Proof.
  intros Hperm. unfold ATS._check_disqualifiers, ATS.has_table_or_image.
  rewrite !contact_loop.
  by rewrite !(existsb_Permutation _ rs rs' Hperm).
Qed.

(** ** Skill coverage *)

(** X10: the skill coverage lies between 0 and 1, and it is 1 exactly
    when the job description has skills and the resume has them all. *)
Theorem skill_coverage_bounds (self : ATS.ATSCalculator) (resume_skills : gset string) :
  (0 <= ATS.skill_coverage self resume_skills <= 1)%Q
  ∧ ((ATS.skill_coverage self resume_skills == 1)%Q ↔
     ATS.jd_skills self ≠ ∅ ∧ ATS.jd_skills self ⊆ resume_skills).
Proof.
  unfold ATS.skill_coverage.
  pose proof (subseteq_size (ATS.jd_skills self ∩ resume_skills) (ATS.jd_skills self))
    as Hle.
  destruct (size (ATS.jd_skills self) =? 0)%nat eqn:E.
  - apply Nat.eqb_eq, size_empty_iff in E. split; [done|].
    split; [done|]. intros [Hne _]. exfalso. apply Hne. by apply leibniz_equiv.
  - apply Nat.eqb_neq in E. specialize (Hle ltac:(set_solver)).
    split.
    + unfold Qle. cbn. split; [lia|].
      rewrite Z.mul_1_r, Z.mul_1_l, <- positive_nat_Z, Nat2Pos.id by done. lia.
    + unfold Qeq. cbn.
      rewrite Z.mul_1_r, Z.mul_1_l, <- positive_nat_Z, Nat2Pos.id by done.
      split.
      * intros Heq. apply Nat2Z.inj in Heq. split.
        { intros Hempty. rewrite Hempty, size_empty in E. done. }
        assert (ATS.jd_skills self ∩ resume_skills ≡ ATS.jd_skills self) as Hsame.
        { apply set_subseteq_size_equiv; [set_solver|lia]. }
        set_solver.
      * intros [_ Hsub]. f_equal. f_equal. apply leibniz_equiv. set_solver.
Qed.

(** ** The gap list *)

Lemma NoDup_firstn {A : Type} (n : nat) (l : list A) :
  NoDup l → NoDup (List.firstn n l).
Proof.
  intros H. revert n. induction H as [|x l Hx Hl IH]; intros [|n]; cbn;
    try constructor; [|apply IH].
  intros Hin. apply Hx. apply list_elem_of_In. apply list_elem_of_In in Hin.
  eapply firstn_subset, Hin.
Qed.

Section GapList.

Context `{B : Backend}.

(** A second extraction from the same text, with the extractor in the
    state the first one left, returns the same skills. *)
Lemma suggest_extract_again (flag : bool) (text : string) :
  fst (Suggest.extract_skills (snd (Suggest.extract_skills flag text)) text)
  = fst (Suggest.extract_skills flag text).
Proof.
  unfold Suggest.extract_skills, Suggest.skillner_skills.
  destruct (Str.is_empty text); [done|].
  destruct (Str.is_empty (Str.strip text)); [done|].
  destruct flag; [|done].
  destruct (skill_annotate text) as [ann|e]; done.
Qed.

(** X11: the gap list has no repeated entry, and each of its entries was
    extracted from the job description and not from the resume. *)
Theorem missing_skills_distinct (skill_extractor : bool)
    (jd_text resume_text : string) :
  let missing := fst (Suggest.get_missing_skills skill_extractor jd_text resume_text) in
  let '(jd_skills, flag) := Suggest.extract_skills skill_extractor jd_text in
  let resume_skills := fst (Suggest.extract_skills flag resume_text) in
  NoDup missing
  ∧ ∀ s, In s missing → s ∈ jd_skills ∧ s ∉ resume_skills.
Proof.
  cbv zeta. unfold Suggest.get_missing_skills.
  destruct (Suggest.extract_skills skill_extractor jd_text) as [jd_skills flag1].
  destruct (Str.is_empty jd_text || Str.is_empty resume_text).
  { cbn. split; [constructor|done]. }
  destruct (Suggest.extract_skills flag1 resume_text) as [resume_skills flag2].
  cbn [fst].
  set (keep := fun skill : string =>
                 bool_decide (Str.lower skill ∈ Suggest.COMMON_SKILLS)
                 && (2 <? String.length skill)%nat).
  set (filtered := List.filter keep (elements (jd_skills ∖ resume_skills))).
  set (detail := fun skill : string =>
                   Suggest.mkDetail skill (Str.count (Str.lower jd_text) (Str.lower skill))).
  set (sorted := merge_sort Suggest.key_le (List.map detail filtered)).
  assert (List.map Suggest.skill sorted ≡ₚ filtered) as Hperm.
  { unfold sorted. rewrite merge_sort_Permutation, List.map_map. cbn.
    by rewrite List.map_id. }
  split.
  - rewrite <- firstn_map. apply NoDup_firstn. rewrite Hperm.
    unfold filtered.
    apply NoDup_ListNoDup, List.NoDup_filter, NoDup_ListNoDup, NoDup_elements.
  - intros s Hs. rewrite <- firstn_map in Hs. apply firstn_subset in Hs.
    apply list_elem_of_In in Hs. rewrite Hperm in Hs.
    apply list_elem_of_In, filter_In in Hs as [Hs _].
    apply list_elem_of_In, elem_of_elements in Hs. set_solver.
Qed.

(** X12: a resume text equal to the job description has no missing
    skill. *)
Theorem missing_skills_of_same_text (skill_extractor : bool) (text_ : string) :
  fst (Suggest.get_missing_skills skill_extractor text_ text_) = [].
Proof.
  unfold Suggest.get_missing_skills.
  destruct (Str.is_empty text_ || Str.is_empty text_); [done|].
  pose proof (suggest_extract_again skill_extractor text_) as Hagain.
  destruct (Suggest.extract_skills skill_extractor text_) as [jd_skills flag1].
  cbn [fst snd] in Hagain.
  destruct (Suggest.extract_skills flag1 text_) as [resume_skills flag2].
  cbn [fst snd] in *. subst resume_skills.
  assert (jd_skills ∖ jd_skills = ∅) as -> by set_solver.
  by rewrite elements_empty.
Qed.

End GapList.

(** ** The advisor on a text that is not blank *)

(** X13: on every text with a character that is not whitespace,
    [analyze_resume_structure] returns a list that is not empty: the
    issues of the contact, section, formatting and content-quality checks
    in this order, or, when there are none, the one entry
    "No major issues detected". *)
Theorem analyze_returns_issues (resume_text : string) (resume_structure : list Element) :
  Str.strip resume_text ≠ "" →
  ∃ contact sections formatting quality,
    Advice.check_contact_info resume_text = Ret contact
    ∧ Advice.check_sections resume_text resume_structure = Ret sections
    ∧ Advice.check_formatting resume_structure = Ret formatting
    ∧ Advice.check_content_quality resume_text resume_structure = Ret quality
    ∧ ∃ issues,
        Advice.analyze_resume_structure resume_text resume_structure = Ret issues
        ∧ issues ≠ []
        ∧ (snd contact ++ sections ++ formatting ++ quality = [] →
           issues = [Advice.no_major_issues])
        ∧ (snd contact ++ sections ++ formatting ++ quality ≠ [] →
           issues = snd contact ++ sections ++ formatting ++ quality).
Proof.
  intros Hne.
  destruct (analyze_nonblank_returns resume_text resume_structure Hne)
    as (contact & sections & formatting & quality & H1 & H2 & H3 & H4 & H5).
  exists contact, sections, formatting, quality. repeat (split; [done|]).
  eexists. split; [exact H5|].
  destruct (snd contact ++ sections ++ formatting ++ quality); done.
Qed.

(** X14: a structure with a table or an image gets score 0 from
    [total_score] and, on a text that is not blank, an advice list that
    names the table or the image. *)
Theorem table_or_image_is_explained `{B : Backend} (self : ATS.ATSCalculator)
    (resume_text : string) (resume_structure : list Element) :
  (∃ it, In it resume_structure ∧ (el_type it = table ∨ el_type it = image)) →
  fst (ATS.total_score self resume_text resume_structure) = 0%Z
  ∧ (Str.strip resume_text ≠ "" →
     ∃ issues,
       Advice.analyze_resume_structure resume_text resume_structure = Ret issues
       ∧ (In (Advice.mkIssue "Uses tables or columns"
                "Avoid tables and columns as they may cause parsing issues with ATS.")
             issues
          ∨ In (Advice.mkIssue "Contains images or graphics"
                  "Remove images, icons, and graphics as they are not ATS-friendly.")
               issues)).
Proof.
  intros (it & Hin & Hkind).
  assert (ATS.has_table_or_image resume_structure = true) as Hgate.
  { apply existsb_exists. exists it. split; [done|]. unfold is_kind.
    destruct Hkind as [-> | ->]; done. }
  split.
  - unfold ATS.total_score.
    destruct (ATS._validate_text resume_text "Resume") as [[] msg]; cbn [negb]; [|done].
    destruct (ATS.is_nil resume_structure); [done|].
    unfold ATS._check_disqualifiers. by rewrite Hgate.
  - intros Hne.
    destruct (analyze_nonblank_returns resume_text resume_structure Hne)
      as (contact & sections & formatting & quality & _ & _ & H3 & _ & H5).
    assert (0 < Advice.count_kind (el_type it) resume_structure)%nat as Hcount.
    { unfold Advice.count_kind.
      assert (In it (List.filter (is_kind (el_type it)) resume_structure)) as H.
      { apply filter_In. split; [done|]. unfold is_kind. by rewrite bool_decide_eq_true_2. }
      destruct (List.filter _ _); [done|]. cbn. lia. }
    apply Nat.ltb_lt in Hcount.
    unfold Advice.check_formatting in H3. injection H3 as <-.
    eexists. split; [exact H5|].
    assert (∀ (l : list Advice.Issue) x,
              In x l →
              In x (match l with
                    | [] => [Advice.no_major_issues]
                    | i :: l' => i :: l'
                    end)) as Hsame by (by intros []).
    destruct Hkind as [Hk|Hk]; rewrite Hk in Hcount; [left|right];
      apply Hsame; rewrite Hcount, !in_app_iff; cbn; tauto.
Qed.

(** ** main.py: the rate limiter *)

Lemma rate_limit_body_logs (request : Main.Request) (now : Q)
    (logs : gmap string (list Q)) :
  let ip := Main.client_ip request in
  let kept :=
    List.filter (fun t => Qltb (now - Main.RATE_LIMIT_WINDOW) t)
                (default [] (logs !! ip)) in
  snd (Main.rate_limit_body request now logs)
  = <[ip := if (Main.RATE_LIMIT <=? List.length kept)%nat then kept
            else kept ++ [now]]> logs.
Proof.
  cbv zeta. unfold Main.rate_limit_body.
  set (ip := Main.client_ip request).
  assert (default [] ((match logs !! ip with
                       | Some _ => logs
                       | None => <[ip:=[]]> logs
                       end) !! ip) = default [] (logs !! ip)) as ->.
  { destruct (logs !! ip) eqn:E; [by rewrite E|]. by rewrite lookup_insert_eq. }
  set (kept := List.filter _ _).
  destruct (Main.RATE_LIMIT <=? List.length kept)%nat; cbn [snd];
    destruct (logs !! ip); by rewrite ?insert_insert_eq.
Qed.

Section RateLimit.

Context `{B : Backend} `{D : Parser.Documents} `{P : Main.PageCounter}.

(** X15: [check_rate_limit] never raises. When the client has made 10
    or more requests within the window the body raises the 429 error, but
    the [except Exception] clause of the same function swallows it, and so
    the answer of [process_resume_and_jd] does not depend on the request
    log at all. *)
Theorem rate_limit_never_blocks (request : Main.Request) (now : Q)
    (logs : gmap string (list Q)) :
  fst (Main.check_rate_limit request now logs) = Ret tt
  ∧ ((Main.RATE_LIMIT
      <= List.length
           (List.filter (fun t => Qltb (now - Main.RATE_LIMIT_WINDOW) t)
                        (default [] (logs !! Main.client_ip request))))%nat →
     ∃ msg, fst (Main.rate_limit_body request now logs) = Raise msg)
  ∧ ∀ jd_text filename reads clock logs' flag,
      fst (Main.process_resume_and_jd jd_text filename reads (Some request) now
             clock (Main.mkServer logs flag))
      = fst (Main.process_resume_and_jd jd_text filename reads (Some request) now
               clock (Main.mkServer logs' flag)).
Proof.
  repeat split.
  - unfold Main.check_rate_limit.
    by destruct (Main.rate_limit_body request now logs) as [[] ?].
  - intros Hmany. unfold Main.rate_limit_body.
    set (ip := Main.client_ip request) in *.
    assert (default [] ((match logs !! ip with
                         | Some _ => logs
                         | None => <[ip:=[]]> logs
                         end) !! ip) = default [] (logs !! ip)) as ->.
    { destruct (logs !! ip) eqn:E; [by rewrite E|]. by rewrite lookup_insert_eq. }
    apply Nat.leb_le in Hmany. rewrite Hmany. by eexists.
  - intros jd_text filename reads clock logs' flag.
    unfold Main.process_resume_and_jd. cbn [Main.request_logs Main.suggest_extractor].
    destruct (Main.validate_file filename reads); [|done].
    destruct (Parser.parse_resume _) as [[resume_text resume_structure]|]; [|done].
    destruct (Main.late_after_parsing clock); [done|].
    by destruct (Main.analysis _ _ _ _ _) as [[[score suggested] issues] flag'].
Qed.

End RateLimit.

(** X16: what [check_rate_limit] does to the request log: the log of the
    client holds only times within the window, with the time of this
    request last unless 10 were already there; no other client's log
    changes; and if no log held more than 10 entries, none does after. *)
Theorem rate_limit_log_invariant (request : Main.Request) (now : Q)
    (logs : gmap string (list Q)) :
  let ip := Main.client_ip request in
  let logs' := snd (Main.check_rate_limit request now logs) in
  (∃ l, logs' !! ip = Some l
        ∧ Forall (fun t => (now - Main.RATE_LIMIT_WINDOW < t)%Q) l)
  ∧ (∀ other, other ≠ ip → logs' !! other = logs !! other)
  ∧ ((∀ k l, logs !! k = Some l → (List.length l <= Main.RATE_LIMIT)%nat) →
     ∀ k l, logs' !! k = Some l → (List.length l <= Main.RATE_LIMIT)%nat).
Proof.
  cbv zeta. unfold Main.check_rate_limit.
  pose proof (rate_limit_body_logs request now logs) as Hlogs. cbv zeta in Hlogs.
  destruct (Main.rate_limit_body request now logs) as [outcome logs'].
  cbn [snd] in *. subst logs'.
  set (ip := Main.client_ip request).
  set (kept := List.filter _ _).
  assert (Forall (fun t => (now - Main.RATE_LIMIT_WINDOW < t)%Q) kept) as Hkept.
  { apply Forall_forall. intros t Ht.
    apply list_elem_of_In, filter_In in Ht as [_ Ht]. by apply Qltb_lt. }
  repeat split.
  - eexists. split; [apply lookup_insert_eq|].
    destruct (Main.RATE_LIMIT <=? List.length kept)%nat; [done|].
    apply Forall_app. split; [done|]. constructor; [|constructor].
    unfold Main.RATE_LIMIT_WINDOW. lra.
  - intros other Hne. by rewrite lookup_insert_ne.
  - intros Hinv k l. destruct (decide (k = ip)) as [->|Hne].
    + rewrite lookup_insert_eq.
      destruct (Main.RATE_LIMIT <=? List.length kept)%nat eqn:E; intros [= <-].
      * transitivity (List.length (default [] (logs !! ip))).
        { apply List.filter_length_le. }
        destruct (logs !! ip) as [l0|] eqn:El; cbn; [by eapply Hinv|].
        unfold Main.RATE_LIMIT. lia.
      * apply Nat.leb_gt in E. rewrite length_app. cbn. lia.
    + rewrite lookup_insert_ne by done. apply Hinv.
Qed.

(** ** main.py and parser.py: the two tests of the file name *)

Lemma split_on_nonempty (p : ascii → bool) (s : string) : Str.split_on p s ≠ [].
Proof.
  destruct s as [|c s]; cbn; [done|].
  destruct (p c); [done|]. by destruct (Str.split_on p s).
Qed.

Lemma split_on_app (p : ascii → bool) (a b : string) (d : ascii) :
  p d = true →
  Str.split_on p (a +:+ String d b) = Str.split_on p a ++ Str.split_on p b.
Proof.
  intros Hd. induction a as [|c a IH]; cbn.
  - by rewrite Hd.
  - rewrite IH. destruct (p c); [done|].
    pose proof (split_on_nonempty p a). by destruct (Str.split_on p a).
Qed.

Lemma split_on_none (p : ascii → bool) (s : string) :
  Str.forallb (fun c => negb (p c)) s = true → Str.split_on p s = [s].
Proof.
  induction s as [|c s IH]; cbn; [done|].
  intros [Hc Hs]%andb_prop. apply negb_true_iff in Hc. by rewrite Hc, IH.
Qed.

Lemma last_field (p : ascii → bool) (a b : string) (d : ascii) :
  p d = true → Str.forallb (fun c => negb (p c)) b = true →
  List.last (Str.split_on p (a +:+ String d b)) "" = b.
Proof.
  intros Hd Hb. rewrite split_on_app, (split_on_none p b) by done.
  apply List.last_last.
Qed.

Lemma contains_char (s : string) (d : ascii) :
  Str.contains s (String d "") = true →
  ∃ a b, s = a +:+ String d b
         ∧ Str.forallb (fun c => negb (Chr.chr d c)) b = true.
Proof.
  induction s as [|c s IH]; cbn; [done|].
  destruct (Str.contains s (String d "")) eqn:E.
  - intros _. destruct (IH eq_refl) as (a & b & -> & Hb). by exists (String c a), b.
  - rewrite orb_false_r, andb_true_r. intros ->%Ascii.eqb_eq.
    exists "", s. split; [done|].
    clear IH. induction s as [|x s IH]; [done|].
    cbn in E. apply orb_false_elim in E as [Hx Hs].
    cbn. rewrite andb_true_r in Hx. unfold Chr.chr. rewrite Ascii.eqb_sym, Hx.
    cbn. auto.
Qed.

Lemma contains_app_char (a b : string) (d : ascii) :
  Str.contains (a +:+ String d b) (String d "") = true.
Proof.
  induction a as [|c a IH]; cbn.
  - by rewrite Ascii.eqb_refl.
  - rewrite IH. apply orb_true_r.
Qed.

Lemma drop_app_length (a b : string) : Str.drop (String.length a) (a +:+ b) = b.
Proof. induction a as [|c a IH]; cbn; [by destruct b|done]. Qed.

Lemma length_app_string (a b : string) :
  String.length (a +:+ b) = (String.length a + String.length b)%nat.
Proof. induction a as [|c a IH]; cbn; [done|]. by rewrite IH. Qed.

Lemma take_drop_string (n : nat) (s : string) : Str.take n s +:+ Str.drop n s = s.
Proof.
  revert s. induction n as [|n IH]; intros [|c s]; cbn; try done. by rewrite IH.
Qed.

Lemma endswith_app (k a : string) : Parser.endswith k (a +:+ k) = true.
Proof.
  unfold Parser.endswith. rewrite length_app_string.
  replace (String.length a + String.length k - String.length k)%nat
    with (String.length a) by lia.
  rewrite drop_app_length, String.eqb_refl, andb_true_r.
  apply Nat.leb_le. lia.
Qed.

Lemma endswith_inv (k s : string) :
  Parser.endswith k s = true → ∃ a, s = a +:+ k.
Proof.
  unfold Parser.endswith. intros [_ Hk%String.eqb_eq]%andb_prop.
  exists (Str.take (String.length s - String.length k) s).
  pose proof (take_drop_string (String.length s - String.length k) s) as Hs.
  by rewrite Hk in Hs.
Qed.

Lemma lower_app_inv (s a b : string) :
  Str.lower s = a +:+ b →
  ∃ s1 s2, s = s1 +:+ s2 ∧ Str.lower s1 = a ∧ Str.lower s2 = b.
Proof.
  revert s. induction a as [|c a IH]; intros s; cbn.
  - intros <-. by exists "", s.
  - destruct s as [|x s]; [done|].
    unfold Str.lower in *. cbn. intros [= Hx Hs].
    destruct (IH s Hs) as (s1 & s2 & -> & <- & <-).
    exists (String x s1), s2. cbn. by rewrite Hx.
Qed.

Lemma lower_is_dot (c : ascii) : Chr.lower c = "."%char → c = "."%char.
Proof. destruct c as [[] [] [] [] [] [] [] []]; cbv; congruence. Qed.

Lemma lower_no_dot (s : string) :
  Str.forallb (fun c => negb (Chr.chr "." c)) (Str.lower s) = true →
  Str.forallb (fun c => negb (Chr.chr "." c)) s = true.
Proof.
  unfold Str.lower. induction s as [|c s IH]; cbn; [done|].
  intros [Hc Hs]%andb_prop. rewrite (IH Hs), andb_true_r.
  unfold Chr.chr in *. destruct (Ascii.eqb_spec c "."); [|done].
  subst c. done.
Qed.

(** The extension that [validate_file] reads is [ext] exactly when the
    lowered file name ends in a dot and [ext], for an extension without a
    dot. *)
Lemma extension_endswith (filename ext : string) :
  Str.forallb (fun c => negb (Chr.chr "." c)) ext = true →
  Parser.endswith (String "." ext) (Str.lower filename) = true
  ↔ Str.contains filename "." = true ∧ Main.file_extension filename = ext.
Proof.
  intros Hext. unfold Main.file_extension. split.
  - intros (a & Ha)%endswith_inv.
    apply lower_app_inv in Ha as (s1 & s2 & -> & _ & Hs2).
    destruct s2 as [|d e]; [done|]. unfold Str.lower in Hs2. cbn in Hs2.
    injection Hs2 as Hd%lower_is_dot He. subst d. fold (Str.lower e) in He.
    split; [apply contains_app_char|].
    rewrite last_field; [done|done|]. apply lower_no_dot. by rewrite He.
  - intros [(a & b & -> & Hb)%contains_char Hlast].
    rewrite last_field in Hlast by done. subst ext.
    rewrite lower_app. unfold Str.lower at 2. cbn [Str.map].
    change (Chr.lower ".") with "."%char. apply endswith_app.
Qed.

(** X17: [validate_file] and [parse_resume] test the file name in two
    different ways (the lowered text after the last dot; the ending of the
    lowered name) and the two agree: [parse_resume] picks the PDF parser
    exactly for the names whose extension [validate_file] reads as pdf, the
    DOCX parser exactly for docx, and it refuses a name as unsupported
    exactly when [validate_file] refuses it. *)
Theorem extension_check_agrees (filename : string) :
  (Parser.format_of filename = Some Parser.PDF
   ↔ Str.contains filename "." = true ∧ Main.file_extension filename = "pdf")
  ∧ (Parser.format_of filename = Some Parser.DOCX
     ↔ Str.contains filename "." = true ∧ Main.file_extension filename = "docx")
  ∧ (Parser.format_of filename = None
     ↔ Str.is_empty filename
       || negb (Str.contains filename ".")
       || negb (ATS.mem (Main.file_extension filename) Main.ALLOWED_EXTENSIONS)
       = true).
Proof.
  pose proof (extension_endswith filename "pdf" eq_refl) as Hpdf.
  pose proof (extension_endswith filename "docx" eq_refl) as Hdocx.
  unfold Parser.format_of, ATS.mem, Main.ALLOWED_EXTENSIONS. cbn [existsb].
  destruct (Parser.endswith ".pdf" (Str.lower filename)) eqn:E1.
  { destruct Hpdf as [[Hc He] _]; [done|]. rewrite Hc, He.
    destruct filename; [done|]. cbn. repeat split; try done.
    intros [_ ?]. done. }
  destruct (Parser.endswith ".docx" (Str.lower filename)) eqn:E2.
  { destruct Hdocx as [[Hc He] _]; [done|]. rewrite Hc, He.
    destruct filename; [done|]. cbn. repeat split; try done.
    intros [_ ?]. done. }
  repeat split; try done.
  - intros H. by apply Hpdf in H.
  - intros H. by apply Hdocx in H.
  - intros _. destruct (Str.contains filename ".") eqn:Hc.
    2:{ cbn. by rewrite orb_true_r. }
    destruct (String.eqb_spec (Main.file_extension filename) "pdf") as [He|_].
    { by destruct Hpdf as [_ Hpdf]; specialize (Hpdf (conj eq_refl He)). }
    destruct (String.eqb_spec (Main.file_extension filename) "docx") as [He|_].
    { by destruct Hdocx as [_ Hdocx]; specialize (Hdocx (conj eq_refl He)). }
    cbn. by rewrite orb_true_r.
Qed.

(** ** main.py: what a validated file is *)

Lemma join_chunks_app (a b : list string) :
  Main.join_chunks (a ++ b) = Main.join_chunks a +:+ Main.join_chunks b.
Proof.
  unfold Main.join_chunks. induction a as [|c a IH]; cbn; [done|].
  rewrite IH. clear IH. induction c as [|x c IH]; cbn; [done|]. by rewrite IH.
Qed.

Lemma join_chunks_snoc (a : list string) (c : string) :
  String.length (Main.join_chunks (a ++ [c]))
  = (String.length (Main.join_chunks a) + String.length c)%nat.
Proof.
  rewrite join_chunks_app, length_app_string. f_equal.
  unfold Main.join_chunks. cbn. induction c as [|x c IH]; cbn; [done|].
  by rewrite IH.
Qed.

Lemma read_chunks_ok (reads : list (py string)) (file_size : Z)
    (chunks result : list string) :
  Main.read_chunks reads file_size chunks = Ret result →
  file_size = Z.of_nat (String.length (Main.join_chunks chunks)) →
  (file_size <= Main.MAX_FILE_SIZE)%Z →
  ∃ more rest,
    result = chunks ++ more
    ∧ reads = List.map Ret more ++ rest
    ∧ Forall (fun chunk => chunk ≠ "") more
    ∧ (rest = [] ∨ ∃ rest', rest = Ret "" :: rest')
    ∧ (Z.of_nat (String.length (Main.join_chunks result)) <= Main.MAX_FILE_SIZE)%Z.
Proof.
  revert file_size chunks.
  induction reads as [|[chunk|e] reads IH]; intros file_size chunks; cbn.
  - intros [= <-] -> Hle. exists [], []. rewrite app_nil_r.
    split; [done|]. split; [done|]. split; [done|]. split; [by left|done].
  - destruct (Str.is_empty chunk) eqn:Hempty.
    + apply is_empty_true in Hempty as ->. intros [= <-] -> Hle.
      exists [], (Ret "" :: reads). rewrite app_nil_r.
      split; [done|]. split; [done|]. split; [done|].
      split; [by right; eexists|done].
    + destruct (Main.MAX_FILE_SIZE <? _)%Z eqn:Hbig; [done|].
      apply Z.ltb_ge in Hbig. intros Hresult -> Hle.
      apply IH in Hresult as (more & rest & -> & -> & Hmore & Hrest & Hsize);
        [|rewrite join_chunks_snoc; lia|done].
      rewrite <- app_assoc in Hsize. exists (chunk :: more), rest.
      rewrite <- app_assoc.
      split; [done|]. split; [done|]. split.
      { constructor; [|done]. by apply is_empty_false. }
      split; [exact Hrest|exact Hsize].
  - done.
Qed.

Section Validation.

Context `{P : Main.PageCounter}.

(** X18: a file that [validate_file] lets through has a name that
    [parse_resume] supports, holds at most 5 MB, is the concatenation of
    the chunks read before the end of the file (the first empty chunk),
    and, if it is a PDF whose pages PyPDF2 can count, has at most 2
    pages. *)
Theorem validate_file_guarantees (filename : string) (reads : list (py string))
    (file_content : string) :
  Main.validate_file filename reads = Ret file_content →
  Parser.format_of filename ≠ None
  ∧ (Z.of_nat (String.length file_content) <= Main.MAX_FILE_SIZE)%Z
  ∧ (∃ chunks rest,
       reads = List.map Ret chunks ++ rest
       ∧ (rest = [] ∨ ∃ rest', rest = Ret "" :: rest')
       ∧ Forall (fun chunk => chunk ≠ "") chunks
       ∧ file_content = Main.join_chunks chunks)
  ∧ (Parser.format_of filename = Some Parser.PDF →
     ∀ pages, Main.pdf_page_count file_content = Ret pages → (pages <= 2)%nat).
Proof.
  pose proof (extension_check_agrees filename) as (Hpdf & _ & Hnone).
  unfold Main.validate_file.
  destruct (Str.is_empty filename) eqn:E1; [done|].
  destruct (Str.contains filename ".") eqn:E2; [|done]. cbn [negb].
  destruct (ATS.mem _ _) eqn:E3; [|done]. cbn [negb].
  destruct (Main.read_chunks reads 0 []) as [chunks|] eqn:Hread; [|done].
  apply read_chunks_ok in Hread
    as (more & rest & -> & -> & Hmore & Hrest & Hsize); [|done|done].
  cbn [app] in *. intros Hret.
  assert (file_content = Main.join_chunks more) as ->.
  { destruct (_ =? "pdf")%string; [|congruence].
    destruct (Main.pdf_page_count _) as [pages|]; [|congruence].
    destruct (2 <? pages)%nat; [done|congruence]. }
  repeat split.
  - intros Hn. by apply Hnone in Hn.
  - done.
  - by exists more, rest.
  - intros Hfmt pages Hpages. apply Hpdf in Hfmt as [_ Hext].
    rewrite Hext, Hpages in Hret. cbn [String.eqb Ascii.eqb Bool.eqb] in Hret.
    destruct (2 <? pages)%nat eqn:Hlong; [discriminate Hret|].
    apply Nat.ltb_ge in Hlong. lia.
Qed.

End Validation.
